(** * hrms.api: a shallow embedding of the query endpoints

    The module [hrms/api/__init__.py] is a set of remote-callable endpoints
    over the relational store of the host framework.  The store is modelled
    as tables (lists of records, in table order), the framework's lookups as
    functions over them, Python's [None]-or-string values as [option string]
    with Python's truthiness, and raising code in a small error monad. *)

From Stdlib Require Import List String Ascii ZArith Bool Lia Arith Permutation Sorted.
Import ListNotations.
Local Open Scope string_scope.
Local Open Scope Z_scope.
Local Open Scope list_scope.

Set Implicit Arguments.

(** ** Python values and exceptions *)

Module Py.

(** A value that is [None] or a [str]. *)
Definition str_or_none := option string.

(** Truthiness: [None] and the empty string are falsy. *)
Definition truthy (v : str_or_none) : bool :=
  match v with
  | Some s => negb (String.eqb s "")
  | None => false
  end.

(** Truthiness of an [int | None] value. *)
Definition truthy_int (v : option Z) : bool :=
  match v with
  | Some n => negb (n =? 0)
  | None => false
  end.

(** [a or b] on [None]-or-string values. *)
Definition or_else (a b : str_or_none) : str_or_none :=
  if truthy a then a else b.

(** Equality of a [None]-or-string value with a string. *)
Definition eq_str (v : str_or_none) (s : string) : bool :=
  match v with
  | Some t => String.eqb t s
  | None => false
  end.

Definition eq_val (a b : str_or_none) : bool :=
  match a, b with
  | Some s, Some t => String.eqb s t
  | None, None => true
  | _, _ => false
  end.

(** [x in l] for a list of [None]-or-string values. *)
Definition mem (x : str_or_none) (l : list str_or_none) : bool :=
  existsb (eq_val x) l.

Inductive exn : Type :=
| DoesNotExistError            (* frappe.get_cached_value on a missing document *)
| AttributeError               (* attribute access on None *)
| SQLError                     (* the database rejects the statement *)
| BinasciiError                (* base64.b64decode on malformed input *)
| ValidationError (msg : string). (* frappe.throw *)

Inductive result (A : Type) : Type :=
| Ok (a : A)
| Raise (e : exn).

Arguments Ok {A} a.
Arguments Raise {A} e.

Definition bind {A B} (m : result A) (k : A -> result B) : result B :=
  match m with
  | Ok a => k a
  | Raise e => Raise e
  end.

End Py.

Import Py.

Notation "'do' x <- m ; k" := (Py.bind m (fun x => k))
  (at level 10, x name, m at level 100, k at level 200).

(** ** The tables the endpoints read *)

Record Employee := {
  emp_name : string;
  emp_leave_approver : str_or_none;
  emp_expense_approver : str_or_none;
  emp_department : str_or_none
}.

(** A department is a node of a nested-interval tree ([lft], [rgt]). *)
Record Department := {
  dept_name : string;
  lft : Z;
  rgt : Z;
  disabled : Z
}.

(** A row of the child table [Department Approver]. *)
Record DepartmentApprover := {
  parent : string;
  parentfield : string;
  idx : Z;
  approver : string
}.

Record User := {
  user_name : string;
  full_name : str_or_none
}.

Record HRSettings := {
  leave_approver_mandatory_in_leave_application : Z;
  expense_approver_mandatory_in_expense_claim : Z
}.

Record Store := {
  tabEmployee : list Employee;
  tabDepartment : list Department;
  tabDepartmentApprover : list DepartmentApprover;
  tabUser : list User;
  hr_settings : HRSettings;
  (** Whether the database accepts the predicate [x IN ()], which the query
      builder emits for [isin] of an empty list: some back ends answer no
      rows, others reject the statement. *)
  accepts_empty_in : bool
}.

(** ** Framework lookups *)

(** [frappe.get_cached_value("Employee", name, [...])]: the document, or
    [DoesNotExistError]. *)
Definition get_cached_Employee (st : Store) (name : string) : result Employee :=
  match find (fun e => String.eqb (emp_name e) name) (tabEmployee st) with
  | Some e => Ok e
  | None => Raise DoesNotExistError
  end.

(** [frappe.db.get_value("Department Approver",
      {"parent": p, "parentfield": pf, "idx": i}, "approver")]:
    the field of the first matching row, [None] without one. *)
Definition approver_filter (p pf : string) (i : Z) (a : DepartmentApprover) : bool :=
  String.eqb (parent a) p && String.eqb (parentfield a) pf && (idx a =? i).

Definition get_value_DepartmentApprover (st : Store) (p pf : string) (i : Z)
  : str_or_none :=
  match find (approver_filter p pf i) (tabDepartmentApprover st) with
  | Some a => Some (approver a)
  | None => None
  end.

(** [frappe.db.get_value("User", name, "full_name", cache=True)]; a [None]
    key finds nothing. *)
Definition get_value_User_full_name (st : Store) (name : str_or_none) : str_or_none :=
  match name with
  | None => None
  | Some n =>
      match find (fun u => String.eqb (user_name u) n) (tabUser st) with
      | Some u => full_name u
      | None => None
      end
  end.

(** [frappe.db.get_value("Department", name, ["lft", "rgt"], as_dict=True)]. *)
Definition get_value_Department (st : Store) (name : string) : option Department :=
  find (fun d => String.eqb (dept_name d) name) (tabDepartment st).

(** ** get_department_approvers *)

(** A row of the join: [{"name": ..., "full_name": ...}]. *)
Record ApproverRow := {
  name : str_or_none;
  row_full_name : str_or_none
}.

(** The filter of the [frappe.get_all("Department", ...)] call:
    [lft <= details.lft], [rgt >= details.rgt], [disabled = 0]. *)
Definition department_filter (details : Department) (d : Department) : bool :=
  (lft d <=? lft details) && (rgt d >=? rgt details) && (disabled d =? 0).

(** [frappe.get_all("Department", filters=..., pluck="name")]. *)
Definition get_all_departments (st : Store) (details : Department) : list string :=
  map dept_name (filter (department_filter details) (tabDepartment st)).

(** The rows of [User JOIN Approver ON Approver.approver = User.name
    WHERE Approver.parent IN departments AND Approver.parentfield = pf]. *)
Definition join_condition (departments : list string) (pf : string)
           (u : User) (a : DepartmentApprover) : bool :=
  String.eqb (approver a) (user_name u)
  && existsb (String.eqb (parent a)) departments
  && String.eqb (parentfield a) pf.

Definition join_rows (st : Store) (departments : list string) (pf : string)
  : list ApproverRow :=
  flat_map
    (fun u =>
       map (fun _ => {| name := Some (user_name u); row_full_name := full_name u |})
           (filter (join_condition departments pf u) (tabDepartmentApprover st)))
    (tabUser st).

Definition run_approver_query (st : Store) (departments : list string) (pf : string)
  : result (list ApproverRow) :=
  match departments with
  | [] => if accepts_empty_in st then Ok [] else Raise SQLError
  | _ => Ok (join_rows st departments pf)
  end.

Definition get_department_approvers (st : Store) (department : str_or_none)
           (pf : string) : result (list ApproverRow) :=
  if negb (truthy department) then Ok []
  else
    match department with
    | None => Ok []
    | Some dname =>
        match get_value_Department st dname with
        | None => Raise AttributeError
        | Some department_details =>
            let departments := get_all_departments st department_details in
            run_approver_query st departments pf
        end
    end.

(** ** get_leave_approval_details and get_expense_approval_details *)

(** The returned dictionary; the two endpoints name the first two keys
    [leave_approver], [leave_approver_name] and [expense_approver],
    [expense_approver_name]. *)
Record ApprovalDetails := {
  approver_id : str_or_none;
  approver_name : str_or_none;
  department_approvers : list ApproverRow;
  is_mandatory : Z
}.

Definition get_leave_approval_details (st : Store) (employee : string)
  : result ApprovalDetails :=
  do e <- get_cached_Employee st employee;
  let leave_approver := emp_leave_approver e in
  let department := emp_department e in
  let leave_approver :=
    if negb (truthy leave_approver) && truthy department then
      match department with
      | Some d => get_value_DepartmentApprover st d "leave_approvers" 1
      | None => leave_approver
      end
    else leave_approver in
  let leave_approver_name := get_value_User_full_name st leave_approver in
  do department_approvers <- get_department_approvers st department "leave_approvers";
  let department_approvers :=
    if truthy leave_approver
       && negb (mem leave_approver (map name department_approvers))
    then department_approvers
           ++ [{| name := leave_approver; row_full_name := leave_approver_name |}]
    else department_approvers in
  Ok {| approver_id := leave_approver;
        approver_name := leave_approver_name;
        department_approvers := department_approvers;
        is_mandatory := leave_approver_mandatory_in_leave_application (hr_settings st) |}.

Definition get_expense_approval_details (st : Store) (employee : string)
  : result ApprovalDetails :=
  do e <- get_cached_Employee st employee;
  let expense_approver := emp_expense_approver e in
  let department := emp_department e in
  let expense_approver :=
    if negb (truthy expense_approver) && truthy department then
      match department with
      | Some d => get_value_DepartmentApprover st d "expense_approvers" 1
      | None => expense_approver
      end
    else expense_approver in
  let expense_approver_name := get_value_User_full_name st expense_approver in
  do department_approvers <- get_department_approvers st department "expense_approvers";
  let department_approvers :=
    if truthy expense_approver
       && negb (mem expense_approver (map name department_approvers))
    then department_approvers
           ++ [{| name := expense_approver; row_full_name := expense_approver_name |}]
    else department_approvers in
  Ok {| approver_id := expense_approver;
        approver_name := expense_approver_name;
        department_approvers := department_approvers;
        is_mandatory := expense_approver_mandatory_in_expense_claim (hr_settings st) |}.

(** The two endpoints are one resolution procedure, instantiated at a
    workflow category. *)
Inductive category := Leave | Expense.

Definition override_of (c : category) (e : Employee) : str_or_none :=
  match c with
  | Leave => emp_leave_approver e
  | Expense => emp_expense_approver e
  end.

Definition parentfield_of (c : category) : string :=
  match c with
  | Leave => "leave_approvers"
  | Expense => "expense_approvers"
  end.

Definition get_approval_details (c : category) : Store -> string -> result ApprovalDetails :=
  match c with
  | Leave => get_leave_approval_details
  | Expense => get_expense_approval_details
  end.

(** The primary approver after the fallback of lines 129-134 and 308-313. *)
Definition primary_approver (c : category) (st : Store) (e : Employee) : str_or_none :=
  if negb (truthy (override_of c e)) && truthy (emp_department e) then
    match emp_department e with
    | Some d => get_value_DepartmentApprover st d (parentfield_of c) 1
    | None => override_of c e
    end
  else override_of c e.

(** The list after lines 139-140 and 318-321: the primary is appended when
    it is truthy and no row of the join carries its name. *)
Definition append_primary (p pname : str_or_none) (rows : list ApproverRow)
  : list ApproverRow :=
  if truthy p && negb (mem p (map name rows))
  then rows ++ [{| name := p; row_full_name := pname |}]
  else rows.

Definition mandatory_of (c : category) (st : Store) : Z :=
  match c with
  | Leave => leave_approver_mandatory_in_leave_application (hr_settings st)
  | Expense => expense_approver_mandatory_in_expense_claim (hr_settings st)
  end.

Definition str_or_none_eq_dec (a b : str_or_none) : {a = b} + {a <> b}.
Proof. decide equality. apply string_dec. Defined.

(** How often an identifier occurs in a list of names. *)
Definition occurrences (x : str_or_none) (l : list str_or_none) : nat :=
  count_occ str_or_none_eq_dec l x.

(** ** Ordering of result rows *)

(** [ORDER BY key DESC], keeping table order among equal keys. *)
Section OrderBy.
Variable A : Type.
Variable key : A -> Z.

Fixpoint insert_desc (x : A) (l : list A) : list A :=
  match l with
  | [] => [x]
  | y :: l' => if key y <? key x then x :: l else y :: insert_desc x l'
  end.

Definition order_by_desc (l : list A) : list A :=
  fold_right insert_desc [] l.
End OrderBy.

(** ** Leave applications *)

Record LeaveApplication := {
  la_name : string;
  la_employee : string;
  la_employee_name : str_or_none;
  la_leave_type : string;
  la_status : string;
  la_from_date : Z;                 (* day number *)
  la_to_date : Z;
  la_half_day : Z;
  la_half_day_date : option Z;
  la_description : str_or_none;
  la_total_leave_days : Z;          (* carried as stored, in hundredths *)
  la_leave_balance : Z;
  la_leave_approver : str_or_none;
  la_posting_date : Z;
  la_docstatus : Z
}.

(** The session and the permission engine of the framework:
    [frappe.has_permission(doctype, ptype, doc=None, user=...)].  Without a
    document the check is on the document type; with one it is on that
    record. *)
Record Session := {
  session_user : string;
  has_permission : string -> string -> option LeaveApplication -> string -> bool
}.

(** Filter dictionaries as the two callers build them: a field compared
    with a value by [=] or [!=]. *)
Inductive value := VStr (s : string) | VInt (z : Z) | VNone.

Inductive condition := Is (v : value) | IsNot (v : value).

Definition filters := list (string * condition).

Definition value_of_str (v : str_or_none) : value :=
  match v with
  | Some s => VStr s
  | None => VNone
  end.

Definition value_eqb (a b : value) : bool :=
  match a, b with
  | VStr s, VStr t => String.eqb s t
  | VInt x, VInt y => x =? y
  | _, _ => false
  end.

Definition la_field (l : LeaveApplication) (f : string) : value :=
  if String.eqb f "employee" then VStr (la_employee l)
  else if String.eqb f "leave_approver" then value_of_str (la_leave_approver l)
  else if String.eqb f "status" then VStr (la_status l)
  else if String.eqb f "docstatus" then VInt (la_docstatus l)
  else if String.eqb f "name" then VStr (la_name l)
  else VNone.

Definition holds (l : LeaveApplication) (fc : string * condition) : bool :=
  match snd fc with
  | Is v => value_eqb (la_field l (fst fc)) v
  | IsNot v => negb (value_eqb (la_field l (fst fc)) v)
  end.

(** [frappe.get_list("Leave Application", fields, filters,
    order_by="from_date desc")]: the rows that pass the filters and that the
    session user may read, latest first. *)
Definition get_list_LeaveApplication (ss : Session) (tab : list LeaveApplication)
           (fs : filters) : list LeaveApplication :=
  order_by_desc la_from_date
    (filter (fun l => forallb (holds l) fs
                      && has_permission ss "Leave Application" "read" (Some l)
                                        (session_user ss))
            tab).

Record LeaveRow := {
  leave : LeaveApplication;
  can_cancel : bool;
  can_delete : bool
}.

Definition get_leave_applications (ss : Session) (tab : list LeaveApplication)
           (fs : filters) : list LeaveRow :=
  let doctype := "Leave Application" in
  let leave_applications := get_list_LeaveApplication ss tab fs in
  map (fun l =>
         {| leave := l;
            can_cancel := has_permission ss doctype "cancel" None (session_user ss);
            can_delete := has_permission ss doctype "delete" None (session_user ss) |})
      leave_applications.

Definition get_employee_leave_applications (ss : Session) (tab : list LeaveApplication)
           (employee : string) : list LeaveRow :=
  get_leave_applications ss tab
    [("employee", Is (VStr employee)); ("status", IsNot (VStr "Cancelled"))].

Definition get_team_leave_applications (ss : Session) (tab : list LeaveApplication)
           (employee user_id : string) : list LeaveRow :=
  get_leave_applications ss tab
    [("employee", IsNot (VStr employee)); ("leave_approver", Is (VStr user_id));
     ("status", Is (VStr "Open")); ("docstatus", Is (VInt 0))].

(** ** Expense claims *)

(** Amounts are decimal columns; they are kept as integers in the smallest
    unit of the column's precision. *)
Record ExpenseClaim := {
  claim_name : string;              (* primary key *)
  claim_employee : string;
  claim_employee_name : str_or_none;
  approval_status : string;
  claim_status : string;
  claim_expense_approver : str_or_none;
  total_claimed_amount : Z;
  total_sanctioned_amount : Z;
  claim_posting_date : Z;
  claim_company : str_or_none;
  claim_docstatus : Z
}.

Record ExpenseClaimDetail := {
  detail_parent : string;
  expense_type : str_or_none
}.

Record Company := {
  company_name : string;
  default_currency : str_or_none
}.

Record Currency := {
  currency_name : string;
  symbol : str_or_none
}.

Record ClaimStore := {
  tabExpenseClaim : list ExpenseClaim;
  tabExpenseClaimDetail : list ExpenseClaimDetail;
  tabCompany : list Company;
  tabCurrency : list Currency
}.

Record ClaimRow := {
  claim : ExpenseClaim;
  row_expense_type : str_or_none;
  total_expenses : Z
}.

(** The [WHERE] clause of the two branches.  A comparison with [NULL] is
    never true. *)
Definition claim_where (employee : string) (approver_id : str_or_none)
           (for_approval : bool) (c : ExpenseClaim) : bool :=
  if for_approval then
    (claim_docstatus c =? 0)
    && String.eqb (claim_status c) "Draft"
    && match approver_id with
       | Some a => eq_str (claim_expense_approver c) a
       | None => false
       end
    && negb (String.eqb (claim_employee c) employee)
  else
    negb (claim_docstatus c =? 2) && String.eqb (claim_employee c) employee.

(** [COUNT(expense_type)] counts the rows where the column is not [NULL]. *)
Definition count_expense_types (ds : list ExpenseClaimDetail) : Z :=
  Z.of_nat (List.length (filter (fun d => match expense_type d with
                                     | Some _ => true
                                     | None => false
                                     end) ds)).

(** [Claim JOIN ClaimDetail ON Claim.name = ClaimDetail.parent ... GROUP BY
    Claim.name]: one row for each claim that has detail rows. *)
Definition group_claim (details : list ExpenseClaimDetail) (c : ExpenseClaim)
  : list ClaimRow :=
  match filter (fun d => String.eqb (claim_name c) (detail_parent d)) details with
  | [] => []
  | d :: ds =>
      [{| claim := c;
          row_expense_type := expense_type d;
          total_expenses := count_expense_types (d :: ds) |}]
  end.

Definition get_expense_claims (cs : ClaimStore) (employee : string)
           (approver_id : str_or_none) (for_approval : bool) (limit : option Z)
  : result (list ClaimRow) :=
  let rows :=
    order_by_desc (fun r => claim_posting_date (claim r))
      (flat_map (group_claim (tabExpenseClaimDetail cs))
                (filter (claim_where employee approver_id for_approval)
                        (tabExpenseClaim cs))) in
  if truthy_int limit then
    match limit with
    | Some n => if n <? 0 then Raise SQLError else Ok (firstn (Z.to_nat n) rows)
    | None => Ok rows
    end
  else Ok rows.

(** [SUM(...)] of a column: [NULL] over no rows. *)
Definition SQL_Sum (l : list Z) : option Z :=
  match l with
  | [] => None
  | _ => Some (fold_right Z.add 0 l)
  end.

(** The three [CASE WHEN approval_status = ... THEN amount ELSE 0 END]
    terms. *)
Definition pending_claims_case (c : ExpenseClaim) : Z :=
  if String.eqb (approval_status c) "Draft" then total_claimed_amount c else 0.

Definition approved_claims_case (c : ExpenseClaim) : Z :=
  if String.eqb (approval_status c) "Approved" then total_sanctioned_amount c else 0.

Definition rejected_claims_case (c : ExpenseClaim) : Z :=
  if String.eqb (approval_status c) "Rejected" then total_sanctioned_amount c else 0.

(** The sum of a column over rows, and the statuses outside the three
    buckets. *)
Definition total (f : ExpenseClaim -> Z) (l : list ExpenseClaim) : Z :=
  fold_right Z.add 0 (map f l).

Definition has_status (s : string) (c : ExpenseClaim) : bool :=
  String.eqb (approval_status c) s.

Definition other_status (c : ExpenseClaim) : bool :=
  negb (has_status "Draft" c) && negb (has_status "Approved" c)
  && negb (has_status "Rejected" c).

Definition summary_where (employee : string) (c : ExpenseClaim) : bool :=
  negb (claim_docstatus c =? 2) && String.eqb (claim_employee c) employee.

Record Summary := {
  total_pending_amount : option Z;
  total_approved_amount : option Z;
  total_rejected_amount : option Z;
  company : str_or_none;
  currency : str_or_none
}.

Definition get_value_Company_default_currency (cs : ClaimStore) (n : str_or_none)
  : str_or_none :=
  match n with
  | None => None
  | Some n =>
      match find (fun c => String.eqb (company_name c) n) (tabCompany cs) with
      | Some c => default_currency c
      | None => None
      end
  end.

Definition get_value_Currency_symbol (cs : ClaimStore) (n : str_or_none)
  : str_or_none :=
  match n with
  | None => None
  | Some n =>
      match find (fun c => String.eqb (currency_name c) n) (tabCurrency cs) with
      | Some c => symbol c
      | None => None
      end
  end.

(** The aggregate query has no [GROUP BY]: it answers one row, whose bare
    [company] column is taken from a row of the selection. *)
Definition get_expense_claim_summary (cs : ClaimStore) (employee : string) : Summary :=
  let rows := filter (summary_where employee) (tabExpenseClaim cs) in
  let summary_company :=
    match rows with
    | [] => None
    | c :: _ => claim_company c
    end in
  let currency := get_value_Company_default_currency cs summary_company in
  let symbol := get_value_Currency_symbol cs currency in
  {| total_pending_amount := SQL_Sum (map pending_claims_case rows);
     total_approved_amount := SQL_Sum (map approved_claims_case rows);
     total_rejected_amount := SQL_Sum (map rejected_claims_case rows);
     company := summary_company;
     currency := or_else symbol currency |}.

(** ** File upload *)

Record File := {
  doctype : string;
  attached_to_doctype : str_or_none;
  attached_to_name : str_or_none;
  attached_to_field : str_or_none;
  folder : string;
  file_name : string;
  content : list Byte.byte;
  is_private : Z
}.

(** [frappe.get_doc({...}).insert()]: the document joins its table and is
    returned. *)
Definition insert (tabFile : list File) (doc : File) : File * list File :=
  (doc, tabFile ++ [doc]).

Section Upload.

(** The collaborators the endpoint imports: Python's [base64.b64decode]
    ([None] when it raises), [mimetypes.guess_type] (a pair of type and
    encoding) and the framework's [ALLOWED_MIMETYPES]. *)
Variable b64decode : string -> option (list Byte.byte).
Variable guess_type : string -> str_or_none * str_or_none.
Variable ALLOWED_MIMETYPES : list string.

Definition not_allowed (content_type : str_or_none) : bool :=
  negb (mem content_type (map Some ALLOWED_MIMETYPES)).

Definition upload_base64_file (tabFile : list File) (content filename : string)
           (dt dn fieldname : str_or_none) : result (File * list File) :=
  match b64decode content with
  | None => Raise BinasciiError
  | Some decoded_content =>
      let content_type := fst (guess_type filename) in
      if not_allowed content_type then
        Raise (ValidationError
                 "You can only upload JPG, PNG, PDF, TXT or Microsoft documents.")
      else
        Ok (insert tabFile
              {| doctype := "File";
                 attached_to_doctype := dt;
                 attached_to_name := dn;
                 attached_to_field := fieldname;
                 folder := "Home";
                 file_name := filename;
                 content := decoded_content;
                 is_private := 1 |})
  end.

End Upload.

(** Whether a call stored the upload. *)
Definition accepted (r : result (File * list File)) : bool :=
  match r with
  | Ok _ => true
  | Raise _ => false
  end.

(** ** Models of the imported library functions

    The endpoint is verified for any decoder, type guesser and allow-list;
    the models below give them a value on concrete uploads. *)

Module PyLib.

Definition code (c : ascii) : Z := Z.of_nat (nat_of_ascii c).

Definition byte_of_Z (z : Z) : Byte.byte :=
  match Byte.of_N (Z.to_N (Z.land z 255)) with
  | Some b => b
  | None => Byte.x00
  end.

(** The base64 alphabet: [A-Z], [a-z], [0-9], [+], [/]. *)
Definition b64_value (c : ascii) : option Z :=
  let n := code c in
  if (65 <=? n) && (n <=? 90) then Some (n - 65)
  else if (97 <=? n) && (n <=? 122) then Some (n - 71)
  else if (48 <=? n) && (n <=? 57) then Some (n + 4)
  else if n =? 43 then Some 62
  else if n =? 47 then Some 63
  else None.

(** [binascii.a2b_base64] without strict mode: characters outside the
    alphabet are skipped, a complete pad sequence ends the input, and
    an unfinished quad at the end raises. *)
Fixpoint a2b_base64 (s : list ascii) (quad_pos leftchar pads : Z)
         (out : list Byte.byte) : option (list Byte.byte) :=
  match s with
  | [] => if quad_pos =? 0 then Some (rev out) else None
  | ch :: rest =>
      if code ch =? 61 then
        if (2 <=? quad_pos) && (4 <=? quad_pos + (pads + 1)) then Some (rev out)
        else a2b_base64 rest quad_pos leftchar
                        (if 2 <=? quad_pos then pads + 1 else pads) out
      else
        match b64_value ch with
        | None => a2b_base64 rest quad_pos leftchar pads out
        | Some v =>
            if quad_pos =? 0 then a2b_base64 rest 1 v 0 out
            else if quad_pos =? 1 then
              a2b_base64 rest 2 (Z.land v 15) 0
                (byte_of_Z (Z.lor (Z.shiftl leftchar 2) (Z.shiftr v 4)) :: out)
            else if quad_pos =? 2 then
              a2b_base64 rest 3 (Z.land v 3) 0
                (byte_of_Z (Z.lor (Z.shiftl leftchar 4) (Z.shiftr v 2)) :: out)
            else
              a2b_base64 rest 0 0 0
                (byte_of_Z (Z.lor (Z.shiftl leftchar 6) v) :: out)
        end
  end.

(** [base64.b64decode(s)]: a [str] is first encoded as ASCII, which
    raises on any other character. *)
Definition b64decode (s : string) : option (list Byte.byte) :=
  let cs := list_ascii_of_string s in
  if forallb (fun c => code c <? 128) cs then a2b_base64 cs 0 0 0 [] else None.

(** [posixpath.splitext], the extension only: the part of the last path
    component from its last dot on, leading dots not counted. *)
Fixpoint basename (s acc : list ascii) : list ascii :=
  match s with
  | [] => rev acc
  | c :: rest => if code c =? 47 then basename rest [] else basename rest (c :: acc)
  end.

Fixpoint strip_dots (s : list ascii) : list ascii :=
  match s with
  | c :: rest => if code c =? 46 then strip_dots rest else s
  | [] => []
  end.

Fixpoint last_ext (s : list ascii) (ext : option (list ascii)) : list ascii :=
  match s with
  | [] => match ext with Some e => e | None => [] end
  | c :: rest => if code c =? 46 then last_ext rest (Some s) else last_ext rest ext
  end.

Definition splitext_ext (p : string) : string :=
  string_of_list_ascii
    (last_ext (strip_dots (basename (list_ascii_of_string p) [])) None).

Definition lower_char (c : ascii) : ascii :=
  let n := code c in
  if (65 <=? n) && (n <=? 90) then ascii_of_nat (Z.to_nat (n + 32)) else c.

Definition lower (s : string) : string :=
  string_of_list_ascii (map lower_char (list_ascii_of_string s)).

(** An excerpt of [mimetypes.types_map]. *)
Definition types_map : list (string * string) :=
  [ (".pdf", "application/pdf");
    (".png", "image/png");
    (".jpg", "image/jpeg");
    (".jpeg", "image/jpeg");
    (".txt", "text/plain");
    (".csv", "text/csv");
    (".doc", "application/msword");
    (".docx", "application/vnd.openxmlformats-officedocument.wordprocessingml.document");
    (".xls", "application/vnd.ms-excel");
    (".xlsx", "application/vnd.openxmlformats-officedocument.spreadsheetml.sheet");
    (".exe", "application/x-msdownload");
    (".sh", "application/x-sh");
    (".html", "text/html") ].

Definition lookup (ext : string) : str_or_none :=
  match find (fun kv => String.eqb (fst kv) ext) types_map with
  | Some kv => Some (snd kv)
  | None => None
  end.

(** [mimetypes.guess_type] on a plain file name (no URL scheme, no
    compression suffix): the extension is looked up as it is, then in
    lower case. *)
Definition guess_type (filename : string) : str_or_none * str_or_none :=
  let ext := splitext_ext filename in
  match lookup ext with
  | Some t => (Some t, None)
  | None => (lookup (lower ext), None)
  end.

(** Modelled from the spec: [ALLOWED_MIMETYPES] of [frappe.handler] is not
    part of this module; its error message and the interface description
    name JPG, PNG, PDF, TXT and Microsoft Office documents. *)
Definition ALLOWED_MIMETYPES : list string :=
  [ "image/png";
    "image/jpeg";
    "application/pdf";
    "text/plain";
    "application/msword";
    "application/vnd.openxmlformats-officedocument.wordprocessingml.document";
    "application/vnd.ms-excel";
    "application/vnd.openxmlformats-officedocument.spreadsheetml.sheet" ].

Definition upload (tabFile : list File) (content filename : string)
           (dt dn fieldname : str_or_none) : result (File * list File) :=
  upload_base64_file b64decode guess_type ALLOWED_MIMETYPES
                     tabFile content filename dt dn fieldname.

End PyLib.


(** ** The selection the specification describes

    The department set in the specification's words: the queried department
    and its descendants, that is every non-disabled department whose
    interval lies within the queried one.  It is compared below with
    [get_all_departments], the set the code selects. *)
Definition spec_subtree_filter (details : Department) (d : Department) : bool :=
  (lft details <=? lft d) && (rgt d <=? rgt details) && (disabled d =? 0).

Definition spec_subtree_departments (st : Store) (details : Department) : list string :=
  map dept_name (filter (spec_subtree_filter details) (tabDepartment st)).

(** ** Sample data *)

Module Sample.

Definition all_departments : Department :=
  {| dept_name := "All Departments"; lft := 1; rgt := 10; disabled := 0 |}.
Definition sales : Department :=
  {| dept_name := "Sales"; lft := 2; rgt := 7; disabled := 0 |}.
Definition legal : Department :=
  {| dept_name := "Legal"; lft := 11; rgt := 12; disabled := 0 |}.

Definition ann : User := {| user_name := "ann@example.com"; full_name := Some "Ann" |}.
Definition bob : User := {| user_name := "bob@example.com"; full_name := Some "Bob" |}.

Definition approver_rows : list DepartmentApprover :=
  [ {| parent := "All Departments"; parentfield := "leave_approvers"; idx := 1;
       approver := "ann@example.com" |};
    {| parent := "Sales"; parentfield := "leave_approvers"; idx := 1;
       approver := "ann@example.com" |};
    {| parent := "Sales"; parentfield := "leave_approvers"; idx := 2;
       approver := "bob@example.com" |};
    {| parent := "All Departments"; parentfield := "expense_approvers"; idx := 1;
       approver := "ann@example.com" |};
    {| parent := "Sales"; parentfield := "expense_approvers"; idx := 1;
       approver := "ann@example.com" |} ].

(** EMP-1 has overrides and no department, EMP-2 is in Sales without
    overrides, EMP-3 is in Sales with overrides, EMP-4 has neither. *)
Definition employees : list Employee :=
  [ {| emp_name := "EMP-1"; emp_leave_approver := Some "bob@example.com";
       emp_expense_approver := Some "bob@example.com"; emp_department := None |};
    {| emp_name := "EMP-2"; emp_leave_approver := None;
       emp_expense_approver := Some ""; emp_department := Some "Sales" |};
    {| emp_name := "EMP-3"; emp_leave_approver := Some "bob@example.com";
       emp_expense_approver := Some "bob@example.com"; emp_department := Some "Sales" |};
    {| emp_name := "EMP-4"; emp_leave_approver := None;
       emp_expense_approver := None; emp_department := Some "" |} ].

Definition org : Store :=
  {| tabEmployee := employees;
     tabDepartment := [all_departments; sales; legal];
     tabDepartmentApprover := approver_rows;
     tabUser := [ann; bob];
     hr_settings := {| leave_approver_mandatory_in_leave_application := 1;
                       expense_approver_mandatory_in_expense_claim := 0 |};
     accepts_empty_in := false |}.

(** Leave applications of two employees, both to be approved by Ann. *)
Definition leave_of (n e : string) (from : Z) : LeaveApplication :=
  {| la_name := n; la_employee := e; la_employee_name := None;
     la_leave_type := "Casual Leave"; la_status := "Open";
     la_from_date := from; la_to_date := from + 1; la_half_day := 0;
     la_half_day_date := None; la_description := None;
     la_total_leave_days := 200; la_leave_balance := 500;
     la_leave_approver := Some "ann@example.com";
     la_posting_date := from - 7; la_docstatus := 0 |}.

Definition leaves : list LeaveApplication :=
  [ leave_of "HR-LAP-1" "EMP-1" 20; leave_of "HR-LAP-2" "EMP-2" 30 ].

(** A permission engine that lets everybody cancel and delete leave
    applications as a document type, and a given record only if it is
    the user's own; Ann is EMP-1. *)
Definition ann_session : Session :=
  {| session_user := "ann@example.com";
     has_permission := fun _ ptype doc _ =>
       match doc with
       | None => true
       | Some l => String.eqb ptype "read" || String.eqb (la_employee l) "EMP-1"
       end |}.

Definition claim_of (n e st : string) (claimed sanctioned date docstatus : Z)
  : ExpenseClaim :=
  {| claim_name := n; claim_employee := e; claim_employee_name := None;
     approval_status := st; claim_status := st;
     claim_expense_approver := Some "ann@example.com";
     total_claimed_amount := claimed; total_sanctioned_amount := sanctioned;
     claim_posting_date := date; claim_company := Some "ACME";
     claim_docstatus := docstatus |}.

Definition claims : ClaimStore :=
  {| tabExpenseClaim :=
       [ claim_of "EXP-1" "EMP-1" "Draft" 100 0 10 0;
         claim_of "EXP-2" "EMP-1" "Approved" 200 200 12 1;
         claim_of "EXP-3" "EMP-1" "Rejected" 300 300 11 1;
         claim_of "EXP-4" "EMP-1" "On Hold" 400 400 13 0;
         claim_of "EXP-5" "EMP-1" "Approved" 500 500 14 2;
         claim_of "EXP-6" "EMP-2" "Draft" 600 0 15 0 ];
     tabExpenseClaimDetail :=
       [ {| detail_parent := "EXP-1"; expense_type := Some "Travel" |};
         {| detail_parent := "EXP-1"; expense_type := Some "Food" |};
         {| detail_parent := "EXP-2"; expense_type := Some "Travel" |};
         {| detail_parent := "EXP-3"; expense_type := Some "Food" |};
         {| detail_parent := "EXP-4"; expense_type := None |};
         {| detail_parent := "EXP-6"; expense_type := Some "Travel" |} ];
     tabCompany := [ {| company_name := "ACME"; default_currency := Some "USD" |} ];
     tabCurrency := [ {| currency_name := "USD"; symbol := Some "$" |} ] |}.

End Sample.



(** ** Python dictionaries

    A [dict] with string keys, in insertion order: assigning to a key that
    is present replaces its value in place, assigning to a new key appends. *)

Definition dict (V : Type) := list (string * V).

Fixpoint dict_get {V} (k : string) (d : dict V) : option V :=
  match d with
  | [] => None
  | (k', v) :: d' => if String.eqb k' k then Some v else dict_get k d'
  end.

Fixpoint dict_set {V} (k : string) (v : V) (d : dict V) : dict V :=
  match d with
  | [] => [(k, v)]
  | (k', v') :: d' =>
      if String.eqb k' k then (k', v) :: d' else (k', v') :: dict_set k v d'
  end.

Definition dict_keys {V} (d : dict V) : list string := map fst d.

(** [{key(x): value(x) for x in xs}]. *)
Definition dict_comprehension {A V} (key : A -> string) (value : A -> V)
           (xs : list A) : dict V :=
  fold_left (fun d x => dict_set (key x) (value x) d) xs [].

(** [ORDER BY key ASC], keeping table order among equal keys. *)
Section OrderByAsc.
Variable A : Type.
Variable key : A -> Z.

Fixpoint insert_asc (x : A) (l : list A) : list A :=
  match l with
  | [] => [x]
  | y :: l' => if key x <? key y then x :: l else y :: insert_asc x l'
  end.

Definition order_by_asc (l : list A) : list A :=
  fold_right insert_asc [] l.
End OrderByAsc.

(** The orders of a listing by a key. *)
Definition descending (A : Type) (key : A -> Z) : A -> A -> Prop :=
  fun a b => key b <= key a.

Definition ascending (A : Type) (key : A -> Z) : A -> A -> Prop :=
  fun a b => key a <= key b.

(** ** Leave balances, leave types and holidays *)

(** What [get_leave_details(employee, date)] of the leave engine answers:
    the allocation per leave type, each a dictionary of numbers, and the
    leave-without-pay types. *)
Record LeaveDetails := {
  leave_allocation : dict (dict Z);
  lwps : list string
}.

Record BalanceEntry := {
  allocated_leaves : option Z;
  balance_leaves : option Z
}.

Record Holiday := {
  holiday_name : string;
  holiday_parent : string;
  holiday_date : Z;
  holiday_description : str_or_none;
  weekly_off : Z
}.

Section LeaveEngine.

(** The collaborators: the leave engine, today's date ([getdate()]) and
    [get_holiday_list_for_employee(employee, raise_exception=False)].  A
    date and its text are one value here. *)
Variable get_leave_details : string -> string -> LeaveDetails.
Variable getdate : string.
Variable get_holiday_list_for_employee : string -> str_or_none.

Definition get_leave_balance_map (employee : string) : dict BalanceEntry :=
  let date := getdate in
  let leave_details := get_leave_details employee date in
  let allocation := leave_allocation leave_details in
  fold_left
    (fun leave_map item =>
       dict_set (fst item)
                {| allocated_leaves := dict_get "total_leaves" (snd item);
                   balance_leaves := dict_get "remaining_leaves" (snd item) |}
                leave_map)
    allocation [].

Definition get_leave_types (employee : string) (date : str_or_none) : list string :=
  let date := match or_else date (Some getdate) with
              | Some d => d
              | None => getdate
              end in
  let leave_details := get_leave_details employee date in
  dict_keys (leave_allocation leave_details) ++ lwps leave_details.

Definition get_holidays_for_employee (tabHoliday : list Holiday) (employee : string)
  : list Holiday :=
  let holiday_list := get_holiday_list_for_employee employee in
  if negb (truthy holiday_list) then []
  else
    order_by_asc holiday_date
      (filter (fun h => eq_str holiday_list (holiday_parent h) && (weekly_off h =? 0))
              tabHoliday).

End LeaveEngine.

(** ** Employee advances *)

Record EmployeeAdvance := {
  adv_name : string;
  adv_employee : string;
  adv_status : string;
  adv_purpose : str_or_none;
  paid_amount : Z;
  claimed_amount : Z;
  return_amount : Z;
  adv_posting_date : Z;
  adv_currency : str_or_none;
  adv_docstatus : Z
}.

Record AdvanceRow := {
  advance : EmployeeAdvance;
  balance_amount : Z
}.

(** The [WHERE] clause: submitted, something paid, of the employee, and
    of status Paid or Unpaid. *)
Definition advance_where (employee : string) (a : EmployeeAdvance) : bool :=
  (adv_docstatus a =? 1)
  && negb (paid_amount a =? 0)
  && String.eqb (adv_employee a) employee
  && existsb (String.eqb (adv_status a)) ["Paid"; "Unpaid"].

Definition get_employee_advance_balance (tabAdvance : list EmployeeAdvance)
           (employee : string) : list AdvanceRow :=
  order_by_desc (fun r => adv_posting_date (advance r))
    (map (fun a => {| advance := a;
                      balance_amount :=
                        paid_amount a - (claimed_amount a + return_amount a) |})
         (filter (advance_where employee) tabAdvance)).

(** ** Currencies *)

(** A row of [Company JOIN Currency ON Company.default_currency =
    Currency.name]. *)
Record CompanyCurrencyRow := {
  cc_name : string;
  cc_default_currency : string;
  cc_symbol : str_or_none
}.

Definition company_currency_rows (cs : ClaimStore) : list CompanyCurrencyRow :=
  flat_map
    (fun c =>
       map (fun cur => {| cc_name := company_name c;
                          cc_default_currency := currency_name cur;
                          cc_symbol := symbol cur |})
           (filter (fun cur => eq_str (default_currency c) (currency_name cur))
                   (tabCurrency cs)))
    (tabCompany cs).

Definition get_company_currencies (cs : ClaimStore) : dict str_or_none :=
  dict_comprehension cc_name
    (fun company => or_else (cc_symbol company) (Some (cc_default_currency company)))
    (company_currency_rows cs).

Definition get_currency_symbols (cs : ClaimStore) : dict str_or_none :=
  dict_comprehension currency_name
    (fun currency => or_else (symbol currency) (Some (currency_name currency)))
    (tabCurrency cs).

(** ** More sample data *)

Module Sample2.

Definition details_of (employee date : string) : LeaveDetails :=
  if String.eqb employee "EMP-1" then
    {| leave_allocation :=
         [ ("Casual Leave", [("total_leaves", 1000); ("remaining_leaves", 500)]);
           ("Earned Leave", [("total_leaves", 300)]) ];
       lwps := ["Leave Without Pay"] |}
  else {| leave_allocation := []; lwps := [] |}.

Definition holiday_list_of (employee : string) : str_or_none :=
  if String.eqb employee "EMP-1" then Some "HL-2024" else None.

Definition holidays : list Holiday :=
  [ {| holiday_name := "h1"; holiday_parent := "HL-2024"; holiday_date := 300;
       holiday_description := Some "Founders day"; weekly_off := 0 |};
    {| holiday_name := "h2"; holiday_parent := "HL-2024"; holiday_date := 7;
       holiday_description := Some "Sunday"; weekly_off := 1 |};
    {| holiday_name := "h3"; holiday_parent := "HL-2024"; holiday_date := 1;
       holiday_description := Some "New year"; weekly_off := 0 |};
    {| holiday_name := "h4"; holiday_parent := "HL-2023"; holiday_date := 2;
       holiday_description := None; weekly_off := 0 |} ].

Definition advance_of (n e st : string) (paid claimed returned date docstatus : Z)
  : EmployeeAdvance :=
  {| adv_name := n; adv_employee := e; adv_status := st; adv_purpose := None;
     paid_amount := paid; claimed_amount := claimed; return_amount := returned;
     adv_posting_date := date; adv_currency := Some "USD";
     adv_docstatus := docstatus |}.

Definition advances : list EmployeeAdvance :=
  [ advance_of "ADV-1" "EMP-1" "Paid" 1000 300 200 5 1;
    advance_of "ADV-2" "EMP-1" "Claimed" 500 500 0 6 1;
    advance_of "ADV-3" "EMP-1" "Unpaid" 0 0 0 7 1;
    advance_of "ADV-4" "EMP-1" "Paid" 800 0 0 9 1;
    advance_of "ADV-5" "EMP-2" "Paid" 100 0 0 8 1;
    advance_of "ADV-6" "EMP-1" "Paid" 100 0 0 8 0 ].

Definition money : ClaimStore :=
  {| tabExpenseClaim := [];
     tabExpenseClaimDetail := [];
     tabCompany :=
       [ {| company_name := "ACME"; default_currency := Some "USD" |};
         {| company_name := "Globex"; default_currency := Some "XTS" |};
         {| company_name := "Initech"; default_currency := Some "ZZZ" |};
         {| company_name := "Hooli"; default_currency := None |} ];
     tabCurrency :=
       [ {| currency_name := "USD"; symbol := Some "$" |};
         {| currency_name := "XTS"; symbol := None |};
         {| currency_name := "EUR"; symbol := Some "" |} ] |}.

End Sample2.

(** * Properties *)

Unset Implicit Arguments.

(** ** Python values *)

Lemma eq_val_true_iff (a b : str_or_none) : eq_val a b = true <-> a = b.
Proof.
  destruct a as [s|], b as [t|]; simpl; split; intros H;
    try discriminate; try reflexivity.
  - apply String.eqb_eq in H. now subst.
  - injection H as ->. apply String.eqb_refl.
Qed.

Lemma mem_In (x : str_or_none) (l : list str_or_none) : mem x l = true <-> In x l.
Proof.
  unfold mem. rewrite existsb_exists. split.
  - intros [y [Hy E]]. apply eq_val_true_iff in E. now subst.
  - intros H. exists x. split; [assumption | now apply eq_val_true_iff].
Qed.

Lemma mem_false_not_In (x : str_or_none) (l : list str_or_none) :
  mem x l = false <-> ~ In x l.
Proof.
  rewrite <- mem_In. destruct (mem x l); split; intros H;
    try discriminate; try reflexivity; try (intros E; discriminate).
  exfalso. now apply H.
Qed.

Lemma truthy_true (v : str_or_none) :
  truthy v = true <-> exists s, v = Some s /\ s <> "".
Proof.
  destruct v as [s|]; simpl.
  - rewrite negb_true_iff, String.eqb_neq. split.
    + intros H. now exists s.
    + intros [t [E H]]. now injection E as ->.
  - split; [discriminate | intros [t [E _]]; discriminate].
Qed.

(** ** Approver resolution *)

(** Both endpoints are the same procedure: read the employee, resolve the
    primary, collect the rows of the department set, append the primary. *)
Lemma get_approval_details_unfold (c : category) (st : Store) (employee : string) :
  get_approval_details c st employee =
  do e <- get_cached_Employee st employee;
  do rows <- get_department_approvers st (emp_department e) (parentfield_of c);
  Ok {| approver_id := primary_approver c st e;
        approver_name := get_value_User_full_name st (primary_approver c st e);
        department_approvers :=
          append_primary (primary_approver c st e)
                         (get_value_User_full_name st (primary_approver c st e)) rows;
        is_mandatory := mandatory_of c st |}.
Proof. destruct c; reflexivity. Qed.

Lemma get_approval_details_returns (c : category) (st : Store) (employee : string)
      (e : Employee) (rows : list ApproverRow) :
  get_cached_Employee st employee = Ok e ->
  get_department_approvers st (emp_department e) (parentfield_of c) = Ok rows ->
  get_approval_details c st employee =
  Ok {| approver_id := primary_approver c st e;
        approver_name := get_value_User_full_name st (primary_approver c st e);
        department_approvers :=
          append_primary (primary_approver c st e)
                         (get_value_User_full_name st (primary_approver c st e)) rows;
        is_mandatory := mandatory_of c st |}.
Proof.
  intros He Hr. rewrite get_approval_details_unfold, He. simpl.
  rewrite Hr. reflexivity.
Qed.

Lemma get_approval_details_inv (c : category) (st : Store) (employee : string)
      (r : ApprovalDetails) :
  get_approval_details c st employee = Ok r ->
  exists e rows,
    get_cached_Employee st employee = Ok e /\
    get_department_approvers st (emp_department e) (parentfield_of c) = Ok rows /\
    approver_id r = primary_approver c st e /\
    department_approvers r =
      append_primary (primary_approver c st e)
                     (get_value_User_full_name st (primary_approver c st e)) rows.
Proof.
  rewrite get_approval_details_unfold.
  destruct (get_cached_Employee st employee) as [e|x]; simpl; [|discriminate].
  destruct (get_department_approvers st (emp_department e) (parentfield_of c))
    as [rows|x] eqn:Hrows; simpl; [|discriminate].
  intros H. injection H as <-. exists e, rows. simpl. repeat split. exact Hrows.
Qed.

(** Without a department no query is issued. *)
Lemma get_department_approvers_no_department (st : Store) (d : str_or_none) (pf : string) :
  truthy d = false -> get_department_approvers st d pf = Ok [].
Proof. intros H. unfold get_department_approvers. now rewrite H. Qed.

Lemma get_department_approvers_department (st : Store) (dname pf : string)
      (details : Department) :
  dname <> "" ->
  get_value_Department st dname = Some details ->
  get_department_approvers st (Some dname) pf =
  run_approver_query st (get_all_departments st details) pf.
Proof.
  intros Hn Hd. unfold get_department_approvers. simpl.
  apply String.eqb_neq in Hn. rewrite Hn. simpl. now rewrite Hd.
Qed.

Lemma get_all_departments_In (st : Store) (details : Department) (n : string) :
  In n (get_all_departments st details) <->
  exists d, In d (tabDepartment st) /\ dept_name d = n /\ disabled d = 0 /\
            lft d <= lft details /\ rgt details <= rgt d.
Proof.
  unfold get_all_departments. rewrite in_map_iff. split.
  - intros [d [Hn Hd]]. apply filter_In in Hd. destruct Hd as [Hin Hf].
    unfold department_filter in Hf.
    apply andb_true_iff in Hf. destruct Hf as [Hf H3].
    apply andb_true_iff in Hf. destruct Hf as [H1 H2].
    exists d. repeat split; try assumption; lia.
  - intros [d [Hin [Hn [H0 [H1 H2]]]]]. exists d. split; [assumption|].
    apply filter_In. split; [assumption|].
    unfold department_filter. rewrite !andb_true_iff. repeat split; lia.
Qed.

(** An enabled department always selects itself, so the query is well formed. *)
Lemma get_department_approvers_enabled (st : Store) (dname pf : string)
      (details : Department) :
  dname <> "" ->
  get_value_Department st dname = Some details ->
  disabled details = 0 ->
  get_department_approvers st (Some dname) pf =
  Ok (join_rows st (get_all_departments st details) pf).
Proof.
  intros Hn Hd H0. rewrite (get_department_approvers_department st dname pf details Hn Hd).
  assert (Hin : In (dept_name details) (get_all_departments st details)).
  { apply get_all_departments_In. exists details.
    unfold get_value_Department in Hd. apply find_some in Hd.
    destruct Hd as [Hin _]. repeat split; try assumption; lia. }
  unfold run_approver_query.
  destruct (get_all_departments st details); [destruct Hin | reflexivity].
Qed.

(** *** The department set *)

(** C1, as stated, fails: with the query department at [lft = 1],
    [rgt = 10], the department at [lft = 2], [rgt = 7] belongs to the
    subtree the specification describes, and the code does not select it;
    the approvers of Sales are not collected for All Departments. *)
Lemma C1_descendant_not_selected :
  (lft Sample.all_departments, rgt Sample.all_departments) = (1, 10) /\
  (lft Sample.sales, rgt Sample.sales) = (2, 7) /\
  get_value_Department Sample.org "All Departments" = Some Sample.all_departments /\
  In "Sales" (spec_subtree_departments Sample.org Sample.all_departments) /\
  ~ In "Sales" (get_all_departments Sample.org Sample.all_departments) /\
  get_department_approvers Sample.org (Some "All Departments") "leave_approvers" =
    Ok [{| name := Some "ann@example.com"; row_full_name := Some "Ann" |}].
Proof.
  repeat split; try reflexivity.
  - vm_compute. tauto.
  - vm_compute. intros [H | []]. discriminate.
Qed.

(** C1, amended: the department set of [get_department_approvers] is the
    set of non-disabled departments whose interval contains the interval of
    the queried department (its ancestors, and the department itself when it
    is not disabled), and the approver query runs over exactly this set.  A
    department at (2, 7) or at (11, 12) is not selected for a query at
    (1, 10); a non-disabled department at (1, 10) is selected for a query
    at (2, 7). *)
Theorem C1_department_set_is_ancestors_or_self :
  (forall st details n,
      In n (get_all_departments st details) <->
      exists d, In d (tabDepartment st) /\ dept_name d = n /\ disabled d = 0 /\
                lft d <= lft details /\ rgt details <= rgt d) /\
  (forall st dname pf details,
      dname <> "" ->
      get_value_Department st dname = Some details ->
      get_department_approvers st (Some dname) pf =
      run_approver_query st (get_all_departments st details) pf) /\
  (forall n1 n2 dis1 dis2,
      department_filter {| dept_name := n1; lft := 1; rgt := 10; disabled := dis1 |}
                        {| dept_name := n2; lft := 2; rgt := 7; disabled := dis2 |}
      = false) /\
  (forall n1 n2 dis1 dis2,
      department_filter {| dept_name := n1; lft := 1; rgt := 10; disabled := dis1 |}
                        {| dept_name := n2; lft := 11; rgt := 12; disabled := dis2 |}
      = false) /\
  (forall n1 n2 dis1,
      department_filter {| dept_name := n1; lft := 2; rgt := 7; disabled := dis1 |}
                        {| dept_name := n2; lft := 1; rgt := 10; disabled := 0 |}
      = true) /\
  (forall d, department_filter d d = (disabled d =? 0)).
Proof.
  split; [exact get_all_departments_In|].
  split; [exact get_department_approvers_department|].
  repeat split; try reflexivity.
  intros d. unfold department_filter.
  rewrite Z.leb_refl, Z.geb_leb, Z.leb_refl. reflexivity.
Qed.

Lemma C1_department_set_witness :
  get_department_approvers Sample.org (Some "Sales") "leave_approvers" =
  run_approver_query Sample.org (get_all_departments Sample.org Sample.sales)
                     "leave_approvers".
Proof.
  apply (proj1 (proj2 C1_department_set_is_ancestors_or_self));
    [discriminate | reflexivity].
Defined.

(** *** Employees without a department *)

(** C2, as stated, fails: EMP-1 has no department and an override; the
    returned list holds the override. *)
Lemma C2_override_listed_without_department :
  (exists e, get_cached_Employee Sample.org "EMP-1" = Ok e /\ emp_department e = None) /\
  get_leave_approval_details Sample.org "EMP-1" =
    Ok {| approver_id := Some "bob@example.com";
          approver_name := Some "Bob";
          department_approvers :=
            [{| name := Some "bob@example.com"; row_full_name := Some "Bob" |}];
          is_mandatory := 1 |} /\
  get_expense_approval_details Sample.org "EMP-1" =
    Ok {| approver_id := Some "bob@example.com";
          approver_name := Some "Bob";
          department_approvers :=
            [{| name := Some "bob@example.com"; row_full_name := Some "Bob" |}];
          is_mandatory := 0 |}.
Proof.
  repeat split; try reflexivity.
  eexists. split; reflexivity.
Qed.

(** C2, amended: for an employee whose department is empty,
    [get_department_approvers] answers the empty list without a query, and
    the list both endpoints return holds the override alone when there is
    one, and is empty when there is none. *)
Theorem C2_no_department_alternates (c : category) (st : Store) (employee : string)
        (e : Employee) :
  get_cached_Employee st employee = Ok e ->
  truthy (emp_department e) = false ->
  get_department_approvers st (emp_department e) (parentfield_of c) = Ok [] /\
  exists r,
    get_approval_details c st employee = Ok r /\
    approver_id r = override_of c e /\
    department_approvers r =
      if truthy (override_of c e)
      then [{| name := override_of c e;
               row_full_name := get_value_User_full_name st (override_of c e) |}]
      else [].
Proof.
  intros He Hd.
  pose proof (get_department_approvers_no_department st _ (parentfield_of c) Hd) as Hq.
  split; [exact Hq|].
  eexists. split; [exact (get_approval_details_returns c st employee e [] He Hq)|].
  assert (Hp : primary_approver c st e = override_of c e).
  { unfold primary_approver. rewrite Hd, andb_false_r. reflexivity. }
  simpl. rewrite Hp. split; [reflexivity|].
  unfold append_primary. simpl. rewrite andb_true_r.
  destruct (truthy (override_of c e)); reflexivity.
Qed.

Lemma C2_no_department_witness :
  get_department_approvers Sample.org None (parentfield_of Leave) = Ok [] /\
  exists r,
    get_approval_details Leave Sample.org "EMP-1" = Ok r /\
    approver_id r = Some "bob@example.com" /\
    department_approvers r =
      [{| name := Some "bob@example.com"; row_full_name := Some "Bob" |}].
Proof.
  exact (C2_no_department_alternates Leave Sample.org "EMP-1"
           {| emp_name := "EMP-1"; emp_leave_approver := Some "bob@example.com";
              emp_expense_approver := Some "bob@example.com"; emp_department := None |}
           eq_refl eq_refl).
Defined.

(** *** The primary approver in the list *)

Lemma names_append_primary (p pname : str_or_none) (rows : list ApproverRow) :
  map name (append_primary p pname rows) =
  map name rows ++ (if truthy p && negb (mem p (map name rows)) then [p] else []).
Proof.
  unfold append_primary.
  destruct (truthy p && negb (mem p (map name rows))).
  - rewrite map_app. reflexivity.
  - now rewrite app_nil_r.
Qed.

Lemma occurrences_app (x : str_or_none) (l1 l2 : list str_or_none) :
  occurrences x (l1 ++ l2) = (occurrences x l1 + occurrences x l2)%nat.
Proof. apply count_occ_app. Qed.

Lemma occurrences_primary (p pname : str_or_none) (rows : list ApproverRow) :
  truthy p = true ->
  occurrences p (map name (append_primary p pname rows)) =
  Nat.max 1 (occurrences p (map name rows)).
Proof.
  intros Hp. rewrite names_append_primary, occurrences_app, Hp.
  unfold occurrences.
  destruct (mem p (map name rows)) eqn:Hm; simpl.
  - apply mem_In in Hm.
    apply (count_occ_In str_or_none_eq_dec) in Hm.
    destruct (count_occ str_or_none_eq_dec (map name rows) p); lia.
  - apply mem_false_not_In in Hm.
    apply (count_occ_not_In str_or_none_eq_dec) in Hm. rewrite Hm.
    destruct (str_or_none_eq_dec p p) as [_|N]; [reflexivity | now destruct N].
Qed.

Lemma occurrences_other (p pname x : str_or_none) (rows : list ApproverRow) :
  x <> p ->
  occurrences x (map name (append_primary p pname rows)) =
  occurrences x (map name rows).
Proof.
  intros Hx. rewrite names_append_primary, occurrences_app.
  unfold occurrences.
  destruct (truthy p && negb (mem p (map name rows))); simpl.
  - destruct (str_or_none_eq_dec p x) as [E|_]; [now subst | lia].
  - lia.
Qed.

Lemma NoDup_append_primary (p pname : str_or_none) (rows : list ApproverRow) :
  NoDup (map name rows) -> NoDup (map name (append_primary p pname rows)).
Proof.
  intros Hn. apply (NoDup_count_occ str_or_none_eq_dec). intros x.
  destruct (str_or_none_eq_dec x p) as [->|Hx].
  - rewrite names_append_primary, count_occ_app.
    destruct (truthy p && negb (mem p (map name rows))) eqn:Hc; simpl.
    + apply andb_true_iff in Hc. destruct Hc as [_ Hm].
      apply negb_true_iff, mem_false_not_In in Hm.
      apply (count_occ_not_In str_or_none_eq_dec) in Hm. rewrite Hm.
      destruct (str_or_none_eq_dec p p) as [_|N]; [lia | now destruct N].
    + rewrite Nat.add_0_r. now apply (NoDup_count_occ str_or_none_eq_dec).
  - change (occurrences x (map name (append_primary p pname rows)) <= 1)%nat.
    rewrite (occurrences_other p pname x rows Hx).
    now apply (NoDup_count_occ str_or_none_eq_dec).
Qed.

(** C3, as stated, fails: EMP-2 works in Sales, whose first leave approver
    is Ann; Ann is also an approver of the parent department, so the join
    lists her once per entry and the primary occurs twice. *)
Lemma C3_primary_listed_twice :
  exists r,
    get_leave_approval_details Sample.org "EMP-2" = Ok r /\
    approver_id r = Some "ann@example.com" /\
    map name (department_approvers r) =
      [Some "ann@example.com"; Some "ann@example.com"; Some "bob@example.com"] /\
    occurrences (approver_id r) (map name (department_approvers r)) = 2%nat /\
    ~ NoDup (map name (department_approvers r)).
Proof.
  eexists. split; [reflexivity|]. simpl.
  repeat split.
  intros H. inversion H as [|x l Hin _]; subst. apply Hin. now left.
Qed.

(** C3, amended: for both categories the returned list is the result of
    the join over the department set, one entry per configured approver
    entry (so an approver configured more than once is listed more than
    once), followed by the primary when it was resolved and the join did not
    name it.  A resolved primary therefore occurs at least once, namely as
    often as in the join or once; no other identifier gains an occurrence;
    and when the join names every approver at most once, so does the
    returned list. *)
Theorem C3_primary_in_alternates (c : category) (st : Store) (employee : string)
        (e : Employee) (rows : list ApproverRow) :
  get_cached_Employee st employee = Ok e ->
  get_department_approvers st (emp_department e) (parentfield_of c) = Ok rows ->
  exists r,
    get_approval_details c st employee = Ok r /\
    approver_id r = primary_approver c st e /\
    department_approvers r =
      append_primary (approver_id r) (approver_name r) rows /\
    (truthy (approver_id r) = true ->
       In (approver_id r) (map name (department_approvers r)) /\
       occurrences (approver_id r) (map name (department_approvers r)) =
         Nat.max 1 (occurrences (approver_id r) (map name rows))) /\
    (truthy (approver_id r) = false -> department_approvers r = rows) /\
    (forall x, x <> approver_id r ->
       occurrences x (map name (department_approvers r)) =
         occurrences x (map name rows)) /\
    (NoDup (map name rows) -> NoDup (map name (department_approvers r))).
Proof.
  intros He Hr.
  eexists. split; [exact (get_approval_details_returns c st employee e rows He Hr)|].
  simpl. split; [reflexivity|]. split; [reflexivity|].
  set (p := primary_approver c st e).
  set (pn := get_value_User_full_name st p).
  repeat split.
  - apply (count_occ_In str_or_none_eq_dec).
    change (occurrences p (map name (append_primary p pn rows)) > 0)%nat.
    rewrite occurrences_primary by assumption. lia.
  - now apply occurrences_primary.
  - intros Hp. unfold append_primary. now rewrite Hp.
  - intros x Hx. now apply occurrences_other.
  - apply NoDup_append_primary.
Qed.

Lemma C3_primary_in_alternates_witness :
  exists r,
    get_approval_details Expense Sample.org "EMP-3" = Ok r /\
    approver_id r = Some "bob@example.com" /\
    In (approver_id r) (map name (department_approvers r)).
Proof.
  destruct (C3_primary_in_alternates Expense Sample.org "EMP-3"
              {| emp_name := "EMP-3"; emp_leave_approver := Some "bob@example.com";
                 emp_expense_approver := Some "bob@example.com";
                 emp_department := Some "Sales" |}
              [{| name := Some "ann@example.com"; row_full_name := Some "Ann" |};
               {| name := Some "ann@example.com"; row_full_name := Some "Ann" |}]
              eq_refl eq_refl)
    as [r [H1 [H2 [_ [H4 _]]]]].
  exists r. split; [exact H1|]. split; [exact H2|].
  apply H4. rewrite H2. reflexivity.
Defined.

(** *** Resolution of the primary approver *)

Lemma primary_approver_override (c : category) (st : Store) (e : Employee) :
  truthy (override_of c e) = true -> primary_approver c st e = override_of c e.
Proof. intros H. unfold primary_approver. now rewrite H. Qed.

Lemma primary_approver_department (c : category) (st : Store) (e : Employee) (d : string) :
  truthy (override_of c e) = false ->
  emp_department e = Some d -> d <> "" ->
  primary_approver c st e = get_value_DepartmentApprover st d (parentfield_of c) 1.
Proof.
  intros Ho Hd Hn. unfold primary_approver. rewrite Ho, Hd. simpl.
  apply String.eqb_neq in Hn. now rewrite Hn.
Qed.

Lemma primary_approver_none (c : category) (st : Store) (e : Employee) :
  truthy (override_of c e) = false ->
  truthy (emp_department e) = false ->
  primary_approver c st e = override_of c e.
Proof. intros Ho Hd. unfold primary_approver. now rewrite Ho, Hd. Qed.

(** The lookup of the first configured approver answers the approver of an
    entry of that department, category and position, and [None] exactly when
    there is no such entry. *)
Lemma get_value_DepartmentApprover_spec (st : Store) (d pf : string) (i : Z) :
  match get_value_DepartmentApprover st d pf i with
  | Some u => exists a, In a (tabDepartmentApprover st) /\
                        parent a = d /\ parentfield a = pf /\ idx a = i /\
                        approver a = u
  | None => forall a, In a (tabDepartmentApprover st) ->
                      ~ (parent a = d /\ parentfield a = pf /\ idx a = i)
  end.
Proof.
  unfold get_value_DepartmentApprover.
  destruct (find (approver_filter d pf i) (tabDepartmentApprover st)) as [a|] eqn:Hf.
  - apply find_some in Hf. destruct Hf as [Hin Hf].
    unfold approver_filter in Hf.
    apply andb_true_iff in Hf. destruct Hf as [Hf H3].
    apply andb_true_iff in Hf. destruct Hf as [H1 H2].
    apply String.eqb_eq in H1, H2. apply Z.eqb_eq in H3.
    exists a. repeat split; assumption.
  - intros a Hin [H1 [H2 H3]].
    pose proof (find_none _ _ Hf a Hin) as Hn.
    unfold approver_filter in Hn.
    rewrite H1, H2, H3, !String.eqb_refl, Z.eqb_refl in Hn. discriminate.
Qed.

(** C4: an employee's non-empty override is the primary approver both
    endpoints return, whatever the store holds for the department: the
    resolved primary is the override in every store, every result carries
    it, and a result is returned whenever the alternates query answers. *)
Theorem C4_override_is_primary (c : category) (st : Store) (employee : string)
        (e : Employee) :
  get_cached_Employee st employee = Ok e ->
  truthy (override_of c e) = true ->
  (forall st', primary_approver c st' e = override_of c e) /\
  (forall r, get_approval_details c st employee = Ok r ->
             approver_id r = override_of c e) /\
  (forall rows,
      get_department_approvers st (emp_department e) (parentfield_of c) = Ok rows ->
      exists r, get_approval_details c st employee = Ok r /\
                approver_id r = override_of c e).
Proof.
  intros He Ho. repeat split.
  - intros st'. now apply primary_approver_override.
  - intros r Hr. apply get_approval_details_inv in Hr.
    destruct Hr as [e' [rows [He' [_ [Hp _]]]]].
    rewrite He in He'. injection He' as <-.
    rewrite Hp. now apply primary_approver_override.
  - intros rows Hrows. eexists.
    split; [exact (get_approval_details_returns c st employee e rows He Hrows)|].
    simpl. now apply primary_approver_override.
Qed.

Lemma C4_override_is_primary_witness :
  exists r, get_approval_details Leave Sample.org "EMP-3" = Ok r /\
            approver_id r = Some "bob@example.com".
Proof.
  exact (proj2 (proj2
           (C4_override_is_primary Leave Sample.org "EMP-3"
              {| emp_name := "EMP-3"; emp_leave_approver := Some "bob@example.com";
                 emp_expense_approver := Some "bob@example.com";
                 emp_department := Some "Sales" |}
              eq_refl eq_refl))
           [{| name := Some "ann@example.com"; row_full_name := Some "Ann" |};
            {| name := Some "ann@example.com"; row_full_name := Some "Ann" |};
            {| name := Some "bob@example.com"; row_full_name := Some "Bob" |}]
           eq_refl).
Defined.

(** C5: without an override, an employee with a department gets as primary
    the approver of the Department Approver entry of that department with
    the category's parentfield and [idx = 1] ([None] when there is no such
    entry); without a department the primary stays empty.  In both cases a
    result is returned whenever the alternates query answers, which it does
    for an empty department. *)
Theorem C5_department_approver_is_primary (c : category) (st : Store)
        (employee : string) (e : Employee) :
  get_cached_Employee st employee = Ok e ->
  truthy (override_of c e) = false ->
  (forall d rows,
      emp_department e = Some d -> d <> "" ->
      get_department_approvers st (Some d) (parentfield_of c) = Ok rows ->
      exists r,
        get_approval_details c st employee = Ok r /\
        approver_id r = get_value_DepartmentApprover st d (parentfield_of c) 1 /\
        match approver_id r with
        | Some u => exists a, In a (tabDepartmentApprover st) /\
                              parent a = d /\ parentfield a = parentfield_of c /\
                              idx a = 1 /\ approver a = u
        | None => forall a, In a (tabDepartmentApprover st) ->
                            ~ (parent a = d /\ parentfield a = parentfield_of c /\
                               idx a = 1)
        end) /\
  (truthy (emp_department e) = false ->
   exists r,
     get_approval_details c st employee = Ok r /\
     approver_id r = override_of c e /\
     truthy (approver_id r) = false /\
     department_approvers r = []).
Proof.
  intros He Ho. split.
  - intros d rows Hd Hn Hrows. rewrite <- Hd in Hrows. eexists.
    split; [exact (get_approval_details_returns c st employee e rows He Hrows)|].
    simpl. rewrite (primary_approver_department c st e d Ho Hd Hn).
    split; [reflexivity|]. apply get_value_DepartmentApprover_spec.
  - intros Hd.
    pose proof (get_department_approvers_no_department st _ (parentfield_of c) Hd) as Hq.
    eexists.
    split; [exact (get_approval_details_returns c st employee e [] He Hq)|].
    simpl. rewrite (primary_approver_none c st e Ho Hd).
    repeat split; [assumption|].
    unfold append_primary. now rewrite Ho.
Qed.

Lemma C5_department_approver_witness :
  exists r,
    get_approval_details Expense Sample.org "EMP-2" = Ok r /\
    approver_id r = Some "ann@example.com".
Proof.
  destruct (proj1
              (C5_department_approver_is_primary Expense Sample.org "EMP-2"
                 {| emp_name := "EMP-2"; emp_leave_approver := None;
                    emp_expense_approver := Some ""; emp_department := Some "Sales" |}
                 eq_refl eq_refl)
              "Sales"
              [{| name := Some "ann@example.com"; row_full_name := Some "Ann" |};
               {| name := Some "ann@example.com"; row_full_name := Some "Ann" |}]
              eq_refl ltac:(discriminate) eq_refl)
    as [r [H1 [H2 _]]].
  exists r. split; [exact H1 | exact H2].
Defined.

(** ** Expense claim summary *)

Lemma SQL_Sum_nonempty (f : ExpenseClaim -> Z) (l : list ExpenseClaim) :
  l <> [] -> SQL_Sum (map f l) = Some (total f l).
Proof. destruct l; [now intros H | reflexivity]. Qed.

Lemma total_Permutation (f : ExpenseClaim -> Z) (l1 l2 : list ExpenseClaim) :
  Permutation l1 l2 -> total f l1 = total f l2.
Proof.
  unfold total. induction 1; simpl; lia.
Qed.

(** A conditional sum is the sum of the column over the rows of the
    bucket. *)
Lemma total_case (s : string) (amount : ExpenseClaim -> Z) (l : list ExpenseClaim) :
  total (fun c => if has_status s c then amount c else 0) l =
  total amount (filter (has_status s) l).
Proof.
  unfold total. induction l as [|c l IH]; simpl; [reflexivity|].
  destruct (has_status s c); simpl; lia.
Qed.

Lemma other_status_cases (c : ExpenseClaim) :
  other_status c = true ->
  pending_claims_case c = 0 /\ approved_claims_case c = 0 /\ rejected_claims_case c = 0.
Proof.
  unfold other_status, has_status, pending_claims_case, approved_claims_case,
    rejected_claims_case.
  intros H. apply andb_true_iff in H. destruct H as [H H3].
  apply andb_true_iff in H. destruct H as [H1 H2].
  apply negb_true_iff in H1, H2, H3. now rewrite H1, H2, H3.
Qed.

Lemma total_other_status (f : ExpenseClaim -> Z) (l : list ExpenseClaim) :
  (forall c, other_status c = true -> f c = 0) ->
  Forall (fun c => other_status c = true) l -> total f l = 0.
Proof.
  intros Hf. unfold total. induction 1 as [|c l Hc _ IH]; simpl; [reflexivity|].
  rewrite (Hf c Hc). lia.
Qed.

(** C6: the summary sums, over the employee's claims that are not
    cancelled, the claimed amount of the Draft claims, the sanctioned amount
    of the Approved claims and the sanctioned amount of the Rejected claims.
    When these claims are a Draft claim of amount 100, an Approved one of
    amount 200, a Rejected one of amount 300 and any claims of other
    statuses, in any order, the three sums are 100, 200 and 300; a claim of
    another status adds 0 to each. *)
Theorem C6_summary_buckets :
  (forall cs e c,
      In c (filter (summary_where e) (tabExpenseClaim cs)) <->
      In c (tabExpenseClaim cs) /\ claim_docstatus c <> 2 /\ claim_employee c = e) /\
  (forall cs e,
      filter (summary_where e) (tabExpenseClaim cs) <> [] ->
      let rows := filter (summary_where e) (tabExpenseClaim cs) in
      let s := get_expense_claim_summary cs e in
      total_pending_amount s =
        Some (total total_claimed_amount (filter (has_status "Draft") rows)) /\
      total_approved_amount s =
        Some (total total_sanctioned_amount (filter (has_status "Approved") rows)) /\
      total_rejected_amount s =
        Some (total total_sanctioned_amount (filter (has_status "Rejected") rows))) /\
  (forall cs e d a r others,
      Permutation (filter (summary_where e) (tabExpenseClaim cs))
                  (d :: a :: r :: others) ->
      approval_status d = "Draft" -> total_claimed_amount d = 100 ->
      approval_status a = "Approved" -> total_sanctioned_amount a = 200 ->
      approval_status r = "Rejected" -> total_sanctioned_amount r = 300 ->
      Forall (fun c => other_status c = true) others ->
      let s := get_expense_claim_summary cs e in
      total_pending_amount s = Some 100 /\
      total_approved_amount s = Some 200 /\
      total_rejected_amount s = Some 300) /\
  (forall c,
      other_status c = true ->
      pending_claims_case c = 0 /\ approved_claims_case c = 0 /\
      rejected_claims_case c = 0).
Proof.
  split; [|split; [|split]].
  - intros cs e c. rewrite filter_In. unfold summary_where.
    rewrite andb_true_iff, negb_true_iff, Z.eqb_neq, String.eqb_eq. tauto.
  - intros cs e Hne rows s. subst s. unfold get_expense_claim_summary. simpl.
    fold rows. rewrite !SQL_Sum_nonempty by exact Hne.
    repeat split; f_equal; apply (total_case _ _ rows).
  - intros cs e d a r others Hperm Hd Hdv Ha Hav Hr Hrv Ho s. subst s.
    unfold get_expense_claim_summary. simpl.
    set (rows := filter (summary_where e) (tabExpenseClaim cs)) in *.
    assert (Hne : rows <> []).
    { intros E. rewrite E in Hperm. now apply Permutation_nil in Hperm. }
    rewrite !SQL_Sum_nonempty by exact Hne.
    rewrite (total_Permutation pending_claims_case _ _ Hperm).
    rewrite (total_Permutation approved_claims_case _ _ Hperm).
    rewrite (total_Permutation rejected_claims_case _ _ Hperm).
    unfold total at 1 2 3. simpl.
    fold (total pending_claims_case others).
    fold (total approved_claims_case others).
    fold (total rejected_claims_case others).
    rewrite (total_other_status pending_claims_case others) by
      (try assumption; intros c Hc; apply (other_status_cases c Hc)).
    rewrite (total_other_status approved_claims_case others) by
      (try assumption; intros c Hc; apply (other_status_cases c Hc)).
    rewrite (total_other_status rejected_claims_case others) by
      (try assumption; intros c Hc; apply (other_status_cases c Hc)).
    unfold pending_claims_case, approved_claims_case, rejected_claims_case.
    rewrite Hd, Ha, Hr, Hdv, Hav, Hrv. simpl. repeat split.
  - exact other_status_cases.
Qed.

Lemma C6_summary_buckets_witness :
  total_pending_amount (get_expense_claim_summary Sample.claims "EMP-1") = Some 100 /\
  total_approved_amount (get_expense_claim_summary Sample.claims "EMP-1") = Some 200 /\
  total_rejected_amount (get_expense_claim_summary Sample.claims "EMP-1") = Some 300.
Proof.
  apply (proj1 (proj2 (proj2 C6_summary_buckets))
           Sample.claims "EMP-1"
           (Sample.claim_of "EXP-1" "EMP-1" "Draft" 100 0 10 0)
           (Sample.claim_of "EXP-2" "EMP-1" "Approved" 200 200 12 1)
           (Sample.claim_of "EXP-3" "EMP-1" "Rejected" 300 300 11 1)
           [Sample.claim_of "EXP-4" "EMP-1" "On Hold" 400 400 13 0]);
    [apply Permutation_refl | reflexivity .. | ].
  constructor; [reflexivity | constructor].
Defined.

(** ** File upload *)

Section UploadProperties.

Variable b64decode : string -> option (list Byte.byte).
Variable guess_type : string -> str_or_none * str_or_none.
Variable ALLOWED_MIMETYPES : list string.

Let upload := upload_base64_file b64decode guess_type ALLOWED_MIMETYPES.

Lemma not_allowed_false (ct : str_or_none) :
  not_allowed ALLOWED_MIMETYPES ct = false <->
  exists t, ct = Some t /\ In t ALLOWED_MIMETYPES.
Proof.
  unfold not_allowed. rewrite negb_false_iff, mem_In, in_map_iff.
  split; intros [t [H1 H2]]; exists t; split; congruence.
Qed.

Lemma not_allowed_true (ct : str_or_none) :
  not_allowed ALLOWED_MIMETYPES ct = true <->
  ~ exists t, ct = Some t /\ In t ALLOWED_MIMETYPES.
Proof.
  rewrite <- not_allowed_false.
  destruct (not_allowed ALLOWED_MIMETYPES ct); split; intros H;
    try reflexivity; try discriminate; try (intros E; discriminate).
  now destruct H.
Qed.

(** Content that does not decode raises before the type is looked at. *)
Lemma upload_undecodable tabFile content filename dt dn fieldname :
  b64decode content = None ->
  upload tabFile content filename dt dn fieldname = Raise BinasciiError.
Proof. intros H. unfold upload, upload_base64_file. now rewrite H. Qed.

Lemma upload_rejected tabFile content filename dt dn fieldname bytes :
  b64decode content = Some bytes ->
  not_allowed ALLOWED_MIMETYPES (fst (guess_type filename)) = true ->
  upload tabFile content filename dt dn fieldname =
  Raise (ValidationError
           "You can only upload JPG, PNG, PDF, TXT or Microsoft documents.").
Proof. intros H1 H2. unfold upload, upload_base64_file. now rewrite H1, H2. Qed.

Lemma upload_stored tabFile content filename dt dn fieldname bytes :
  b64decode content = Some bytes ->
  not_allowed ALLOWED_MIMETYPES (fst (guess_type filename)) = false ->
  upload tabFile content filename dt dn fieldname =
  let doc := {| doctype := "File";
                attached_to_doctype := dt;
                attached_to_name := dn;
                attached_to_field := fieldname;
                folder := "Home";
                file_name := filename;
                content := bytes;
                is_private := 1 |} in
  Ok (doc, tabFile ++ [doc]).
Proof. intros H1 H2. unfold upload, upload_base64_file. now rewrite H1, H2. Qed.

End UploadProperties.

(** C7, as stated, fails: the content is decoded before the type check, so
    an upload named [cv.exe], whose type is outside the allow-list, with
    content that is not base64 ends in the decoder's error, not in the
    user-facing one. *)
Lemma C7_undecodable_content_raises_first :
  fst (PyLib.guess_type "cv.exe") = Some "application/x-msdownload" /\
  not_allowed PyLib.ALLOWED_MIMETYPES (fst (PyLib.guess_type "cv.exe")) = true /\
  PyLib.b64decode "a" = None /\
  PyLib.upload [] "a" "cv.exe" None None None = Raise BinasciiError /\
  PyLib.upload [] "a" "cv.exe" None None None <>
    Raise (ValidationError
             "You can only upload JPG, PNG, PDF, TXT or Microsoft documents.").
Proof.
  repeat split; try reflexivity. vm_compute. discriminate.
Qed.

(** C7, amended: for whatever decoder, type guesser and allow-list, an
    upload whose content decodes and whose filename maps to no type of the
    allow-list is rejected with the user-facing error, and one whose
    filename maps to an allowed type creates a File record with the decoded
    bytes as content, appended to the table; content that does not decode
    raises the decoder's error before the check.  Every error leaves the
    table as it was, since only a stored upload returns a table.  With the
    modelled library [cv.exe] is rejected and [cv.pdf] is stored. *)
Theorem C7_upload_checks_type_after_decoding :
  (forall b64decode guess_type ALLOWED tabFile payload filename dt dn fieldname,
      let r := upload_base64_file b64decode guess_type ALLOWED
                                  tabFile payload filename dt dn fieldname in
      (b64decode payload = None -> r = Raise BinasciiError) /\
      (forall bytes,
          b64decode payload = Some bytes ->
          ((~ exists t, fst (guess_type filename) = Some t /\ In t ALLOWED) ->
           r = Raise (ValidationError
                        "You can only upload JPG, PNG, PDF, TXT or Microsoft documents.")) /\
          (forall t,
              fst (guess_type filename) = Some t -> In t ALLOWED ->
              exists doc,
                r = Ok (doc, tabFile ++ [doc]) /\
                content doc = bytes /\ file_name doc = filename /\
                doctype doc = "File" /\ folder doc = "Home" /\ is_private doc = 1 /\
                attached_to_doctype doc = dt /\ attached_to_name doc = dn /\
                attached_to_field doc = fieldname))) /\
  PyLib.upload [] "aGk=" "cv.exe" None None None =
    Raise (ValidationError
             "You can only upload JPG, PNG, PDF, TXT or Microsoft documents.") /\
  (exists doc,
      PyLib.upload [] "aGk=" "cv.pdf" (Some "Expense Claim") (Some "EXP-1") None =
        Ok (doc, [doc]) /\
      content doc = [Byte.x68; Byte.x69] /\ file_name doc = "cv.pdf").
Proof.
  split; [|split].
  - intros b64decode guess_type ALLOWED tabFile payload filename dt dn fieldname r.
    subst r. split.
    + apply upload_undecodable.
    + intros bytes Hb. split.
      * intros Hn. apply (upload_rejected _ _ _ _ _ _ _ _ _ bytes Hb).
        now apply not_allowed_true.
      * intros t Ht Hin. eexists. split.
        -- apply (upload_stored _ _ _ _ _ _ _ _ _ bytes Hb).
           apply not_allowed_false. now exists t.
        -- simpl. repeat split.
  - reflexivity.
  - eexists. split; [reflexivity|]. split; reflexivity.
Qed.

Lemma C7_upload_witness :
  exists doc,
    PyLib.upload [] "aGk=" "cv.pdf" None None None = Ok (doc, [] ++ [doc]) /\
    content doc = [Byte.x68; Byte.x69].
Proof.
  destruct (proj2 (proj2 (proj1 C7_upload_checks_type_after_decoding
                            PyLib.b64decode PyLib.guess_type PyLib.ALLOWED_MIMETYPES
                            [] "aGk=" "cv.pdf" None None None)
                     [Byte.x68; Byte.x69] eq_refl)
              "application/pdf" eq_refl)
    as [doc [H1 [H2 _]]].
  - vm_compute. tauto.
  - exists doc. split; [exact H1 | exact H2].
Defined.

(** C9: whether an upload is stored depends on the filename alone: two
    uploads of decodable content under one filename are both stored or both
    rejected, with the same error, whatever the content, the target record
    and the table; the decision is the allow-list check on the type guessed
    from the filename. *)
Theorem C9_decision_depends_on_filename_only
        (b64decode : string -> option (list Byte.byte))
        (guess_type : string -> str_or_none * str_or_none)
        (ALLOWED : list string)
        (tab1 tab2 : list File) (content1 content2 filename : string)
        (dt1 dn1 field1 dt2 dn2 field2 : str_or_none)
        (bytes1 bytes2 : list Byte.byte) :
  b64decode content1 = Some bytes1 ->
  b64decode content2 = Some bytes2 ->
  let r1 := upload_base64_file b64decode guess_type ALLOWED
                               tab1 content1 filename dt1 dn1 field1 in
  let r2 := upload_base64_file b64decode guess_type ALLOWED
                               tab2 content2 filename dt2 dn2 field2 in
  accepted r1 = accepted r2 /\
  accepted r1 = negb (not_allowed ALLOWED (fst (guess_type filename))) /\
  (forall e, r1 = Raise e <-> r2 = Raise e).
Proof.
  intros H1 H2 r1 r2. subst r1 r2. unfold upload_base64_file.
  rewrite H1, H2.
  destruct (not_allowed ALLOWED (fst (guess_type filename))); simpl.
  - repeat split; intros H; exact H.
  - repeat split; intros H; discriminate.
Qed.

Lemma C9_decision_witness :
  accepted (PyLib.upload [] "aGk=" "cv.exe" None None None) =
  accepted (PyLib.upload [] "aGVsbG8=" "cv.exe" (Some "Expense Claim") (Some "EXP-1") None).
Proof.
  exact (proj1 (C9_decision_depends_on_filename_only
                  PyLib.b64decode PyLib.guess_type PyLib.ALLOWED_MIMETYPES
                  [] [] "aGk=" "aGVsbG8=" "cv.exe"
                  None None None (Some "Expense Claim") (Some "EXP-1") None
                  [Byte.x68; Byte.x69]
                  [Byte.x68; Byte.x65; Byte.x6c; Byte.x6c; Byte.x6f]
                  eq_refl eq_refl)).
Defined.

(** ** Listings *)

Section OrderByProperties.
Variable A : Type.
Variable key : A -> Z.

Lemma insert_desc_Permutation (x : A) (l : list A) :
  Permutation (insert_desc key x l) (x :: l).
Proof.
  induction l as [|y l IH]; simpl; [reflexivity|].
  destruct (key y <? key x); [reflexivity|].
  rewrite IH. apply perm_swap.
Qed.

Lemma order_by_desc_Permutation (l : list A) :
  Permutation (order_by_desc key l) l.
Proof.
  induction l as [|x l IH]; simpl; [reflexivity|].
  rewrite insert_desc_Permutation. now constructor.
Qed.

Lemma order_by_desc_In (x : A) (l : list A) :
  In x (order_by_desc key l) <-> In x l.
Proof.
  split; apply Permutation_in;
    [| symmetry]; apply order_by_desc_Permutation.
Qed.
End OrderByProperties.

(** C8, as stated, fails: for Ann's team listing the flags of the leave
    application of EMP-2 say she can cancel and delete, while the permission
    check on that record says she cannot. *)
Lemma C8_flags_ignore_the_record :
  exists row,
    get_team_leave_applications Sample.ann_session Sample.leaves
                                "EMP-1" "ann@example.com" = [row] /\
    la_name (leave row) = "HR-LAP-2" /\
    can_cancel row = true /\
    has_permission Sample.ann_session "Leave Application" "cancel"
                   (Some (leave row)) (session_user Sample.ann_session) = false /\
    can_delete row = true /\
    has_permission Sample.ann_session "Leave Application" "delete"
                   (Some (leave row)) (session_user Sample.ann_session) = false.
Proof.
  eexists. split; [reflexivity|]. repeat split.
Qed.

(** C8, amended: every row of a listing carries, as [can_cancel] and
    [can_delete], the result of the permission check of the session user on
    the document type Leave Application for cancel and for delete; the
    check is not given the record, so all rows of a listing carry the same
    two values.  The rows are the leave applications the framework lists
    for the filters. *)
Theorem C8_flags_are_doctype_permissions (ss : Session) (tab : list LeaveApplication)
        (fs : filters) :
  map leave (get_leave_applications ss tab fs) = get_list_LeaveApplication ss tab fs /\
  (forall row,
      In row (get_leave_applications ss tab fs) ->
      can_cancel row =
        has_permission ss "Leave Application" "cancel" None (session_user ss) /\
      can_delete row =
        has_permission ss "Leave Application" "delete" None (session_user ss) /\
      In (leave row) tab /\ forallb (holds (leave row)) fs = true) /\
  (forall row1 row2,
      In row1 (get_leave_applications ss tab fs) ->
      In row2 (get_leave_applications ss tab fs) ->
      can_cancel row1 = can_cancel row2 /\ can_delete row1 = can_delete row2).
Proof.
  assert (Hrow : forall row,
             In row (get_leave_applications ss tab fs) ->
             can_cancel row =
               has_permission ss "Leave Application" "cancel" None (session_user ss) /\
             can_delete row =
               has_permission ss "Leave Application" "delete" None (session_user ss) /\
             In (leave row) tab /\ forallb (holds (leave row)) fs = true).
  { intros row Hin. unfold get_leave_applications in Hin.
    apply in_map_iff in Hin. destruct Hin as [l [<- Hl]]. simpl.
    unfold get_list_LeaveApplication in Hl.
    apply order_by_desc_In, filter_In in Hl. destruct Hl as [Hl Hf].
    apply andb_true_iff in Hf. destruct Hf as [Hf _].
    repeat split; assumption. }
  split; [|split].
  - unfold get_leave_applications. rewrite map_map. simpl. apply map_id.
  - exact Hrow.
  - intros row1 row2 H1 H2.
    destruct (Hrow row1 H1) as [C1 [D1 _]], (Hrow row2 H2) as [C2 [D2 _]].
    split; congruence.
Qed.

Lemma C8_flags_witness :
  let row := {| leave := Sample.leave_of "HR-LAP-1" "EMP-1" 20;
                can_cancel := true; can_delete := true |} in
  can_cancel row =
    has_permission Sample.ann_session "Leave Application" "cancel" None
                   (session_user Sample.ann_session) /\
  can_delete row =
    has_permission Sample.ann_session "Leave Application" "delete" None
                   (session_user Sample.ann_session) /\
  In (leave row) Sample.leaves /\
  forallb (holds (leave row))
          [("employee", Is (VStr "EMP-1")); ("status", IsNot (VStr "Cancelled"))] = true.
Proof.
  exact (proj1 (proj2 (C8_flags_are_doctype_permissions
                         Sample.ann_session Sample.leaves
                         [("employee", Is (VStr "EMP-1"));
                          ("status", IsNot (VStr "Cancelled"))]))
               {| leave := Sample.leave_of "HR-LAP-1" "EMP-1" 20;
                  can_cancel := true; can_delete := true |}
               (or_introl eq_refl)).
Defined.

(** ** Expense claim listing *)

(** C10: a limit of 0 and no limit give the same listing, the whole
    selection: every matching claim that has detail rows is in it.  A
    positive limit keeps the first rows of this listing, at most as many as
    the limit says. *)
Theorem C10_limit_only_when_truthy (cs : ClaimStore) (employee : string)
        (approver_id : str_or_none) (for_approval : bool) :
  get_expense_claims cs employee approver_id for_approval (Some 0) =
  get_expense_claims cs employee approver_id for_approval None /\
  exists rows,
    get_expense_claims cs employee approver_id for_approval None = Ok rows /\
    (forall r,
        In r rows <->
        exists c, In c (tabExpenseClaim cs) /\
                  claim_where employee approver_id for_approval c = true /\
                  In r (group_claim (tabExpenseClaimDetail cs) c)) /\
    (forall n,
        0 < n ->
        get_expense_claims cs employee approver_id for_approval (Some n) =
          Ok (firstn (Z.to_nat n) rows) /\
        Z.of_nat (List.length (firstn (Z.to_nat n) rows)) <= n).
Proof.
  split; [reflexivity|].
  eexists. split; [reflexivity|]. split.
  - intros r. rewrite order_by_desc_In, in_flat_map.
    split; intros [c [H1 H2]]; exists c.
    + apply filter_In in H1. tauto.
    + split; [apply filter_In|]; tauto.
  - intros n Hn. unfold get_expense_claims. simpl.
    assert (E0 : (n =? 0) = false) by (apply Z.eqb_neq; lia).
    assert (E1 : (n <? 0) = false) by (apply Z.ltb_ge; lia).
    rewrite E0, E1. simpl. split; [reflexivity|].
    pose proof (firstn_le_length (Z.to_nat n)
                  (order_by_desc (fun r => claim_posting_date (claim r))
                     (flat_map (group_claim (tabExpenseClaimDetail cs))
                        (filter (claim_where employee approver_id for_approval)
                           (tabExpenseClaim cs))))) as Hl.
    lia.
Qed.

Lemma C10_limit_witness :
  get_expense_claims Sample.claims "EMP-1" None false (Some 2) =
  Ok (firstn 2
        (order_by_desc (fun r => claim_posting_date (claim r))
           (flat_map (group_claim (tabExpenseClaimDetail Sample.claims))
              (filter (claim_where "EMP-1" None false)
                 (tabExpenseClaim Sample.claims))))).
Proof.
  destruct (proj2 (C10_limit_only_when_truthy Sample.claims "EMP-1" None false))
    as [rows [H1 [_ H3]]].
  injection H1 as <-.
  exact (proj1 (H3 2 eq_refl)).
Defined.


(** * Further properties of the endpoints *)

(** ** Dictionaries *)

Section DictProperties.
Variables (A V : Type).
Variable key : A -> string.
Variable value : A -> V.

Lemma dict_get_set_eq (k : string) (v : V) (d : dict V) :
  dict_get k (dict_set k v d) = Some v.
Proof.
  induction d as [|[k' v'] d IH]; simpl.
  - now rewrite String.eqb_refl.
  - destruct (String.eqb k' k) eqn:E; simpl; rewrite E; [reflexivity | exact IH].
Qed.

Lemma dict_get_set_neq (k k' : string) (v : V) (d : dict V) :
  k <> k' -> dict_get k (dict_set k' v d) = dict_get k d.
Proof.
  intros Hn. induction d as [|[k0 v0] d IH]; simpl.
  - apply not_eq_sym, String.eqb_neq in Hn. now rewrite Hn.
  - destruct (String.eqb k0 k') eqn:E; simpl.
    + apply String.eqb_eq in E. subst k0.
      apply not_eq_sym, String.eqb_neq in Hn. now rewrite Hn.
    + now rewrite IH.
Qed.

Lemma dict_keys_set (k : string) (v : V) (d : dict V) :
  dict_keys (dict_set k v d) =
  if existsb (fun k' => String.eqb k' k) (dict_keys d) then dict_keys d
  else dict_keys d ++ [k].
Proof.
  unfold dict_keys. induction d as [|[k' v'] d IH]; simpl; [reflexivity|].
  destruct (String.eqb k' k) eqn:E; simpl; [reflexivity|].
  rewrite IH. now destruct (existsb _ (map fst d)).
Qed.

Let assign := fun (d : dict V) (x : A) => dict_set (key x) (value x) d.

Lemma dict_get_fold_other (k : string) (xs : list A) (d : dict V) :
  ~ In k (map key xs) ->
  dict_get k (fold_left assign xs d) = dict_get k d.
Proof.
  revert d. induction xs as [|x xs IH]; intros d Hn; simpl; [reflexivity|].
  simpl in Hn. rewrite IH by tauto.
  apply dict_get_set_neq. intros E. apply Hn. now left.
Qed.

Lemma dict_get_fold (k : string) (xs : list A) (d : dict V) :
  NoDup (map key xs) ->
  dict_get k (fold_left assign xs d) =
  match find (fun x => String.eqb (key x) k) xs with
  | Some x => Some (value x)
  | None => dict_get k d
  end.
Proof.
  revert d. induction xs as [|x xs IH]; intros d Hnd; simpl; [reflexivity|].
  inversion Hnd as [|? ? Hnotin Hnd']; subst.
  destruct (String.eqb (key x) k) eqn:E.
  - apply String.eqb_eq in E. subst k.
    rewrite dict_get_fold_other by assumption. apply dict_get_set_eq.
  - rewrite IH by assumption.
    destruct (find (fun x0 => String.eqb (key x0) k) xs); [reflexivity|].
    apply dict_get_set_neq. apply String.eqb_neq in E. congruence.
Qed.

Lemma dict_keys_fold (xs : list A) (d : dict V) :
  NoDup (dict_keys d ++ map key xs) ->
  dict_keys (fold_left assign xs d) = dict_keys d ++ map key xs.
Proof.
  revert d. induction xs as [|x xs IH]; intros d Hnd; simpl.
  - now rewrite app_nil_r.
  - assert (Hk : dict_keys (assign d x) = dict_keys d ++ [key x]).
    { unfold assign. rewrite dict_keys_set.
      destruct (existsb (fun k' => String.eqb k' (key x)) (dict_keys d)) eqn:E;
        [|reflexivity].
      apply existsb_exists in E. destruct E as [k' [Hin E]].
      apply String.eqb_eq in E. subst k'.
      apply NoDup_remove_2 in Hnd. exfalso. apply Hnd.
      apply in_or_app. now left. }
    rewrite IH; rewrite Hk, <- app_assoc; simpl; [reflexivity | exact Hnd].
Qed.

(** A comprehension over items with distinct keys has these keys, in
    order, and maps each to the value of its item. *)
Lemma dict_comprehension_keys (xs : list A) :
  NoDup (map key xs) ->
  dict_keys (dict_comprehension key value xs) = map key xs.
Proof. intros H. apply (dict_keys_fold xs []). exact H. Qed.

Lemma dict_comprehension_get (k : string) (xs : list A) :
  NoDup (map key xs) ->
  dict_get k (dict_comprehension key value xs) =
  option_map value (find (fun x => String.eqb (key x) k) xs).
Proof.
  intros H. unfold dict_comprehension. fold assign.
  rewrite dict_get_fold by exact H.
  now destruct (find (fun x => String.eqb (key x) k) xs).
Qed.

Lemma find_key_In (x : A) (xs : list A) :
  NoDup (map key xs) -> In x xs ->
  find (fun y => String.eqb (key y) (key x)) xs = Some x.
Proof.
  induction xs as [|y xs IH]; intros Hnd Hin; [destruct Hin|].
  inversion Hnd as [|? ? Hnotin Hnd']; subst. simpl.
  destruct Hin as [->|Hin].
  - now rewrite String.eqb_refl.
  - destruct (String.eqb (key y) (key x)) eqn:E.
    + apply String.eqb_eq in E. exfalso. apply Hnotin. rewrite E.
      now apply in_map.
    + now apply IH.
Qed.

End DictProperties.

Lemma dict_get_find {V : Type} (k : string) (d : dict V) :
  dict_get k d = option_map snd (find (fun kv => String.eqb (fst kv) k) d).
Proof.
  induction d as [|[k' v] d IH]; simpl; [reflexivity|].
  now destruct (String.eqb k' k).
Qed.

(** ** Ordered listings *)

Section SortedProperties.
Variable A : Type.
Variable key : A -> Z.

Lemma insert_desc_sorted (x : A) (l : list A) :
  StronglySorted (descending key) l -> StronglySorted (descending key) (insert_desc key x l).
Proof.
  induction 1 as [|y l Hs IH Hall]; simpl.
  - repeat constructor.
  - destruct (key y <? key x) eqn:E.
    + apply Z.ltb_lt in E. constructor; [now constructor|].
      constructor; [unfold descending; lia|].
      eapply Forall_impl; [|exact Hall]. unfold descending. intros z Hz. lia.
    + apply Z.ltb_ge in E. constructor; [exact IH|].
      apply (Permutation_Forall (Permutation_sym (insert_desc_Permutation A key x l))).
      constructor; [exact E | exact Hall].
Qed.

Lemma order_by_desc_sorted (l : list A) :
  StronglySorted (descending key) (order_by_desc key l).
Proof.
  induction l as [|x l IH]; simpl; [constructor | now apply insert_desc_sorted].
Qed.

Lemma insert_asc_Permutation (x : A) (l : list A) :
  Permutation (insert_asc key x l) (x :: l).
Proof.
  induction l as [|y l IH]; simpl; [reflexivity|].
  destruct (key x <? key y); [reflexivity|].
  rewrite IH. apply perm_swap.
Qed.

Lemma order_by_asc_Permutation (l : list A) :
  Permutation (order_by_asc key l) l.
Proof.
  induction l as [|x l IH]; simpl; [reflexivity|].
  rewrite insert_asc_Permutation. now constructor.
Qed.

Lemma insert_asc_sorted (x : A) (l : list A) :
  StronglySorted (ascending key) l -> StronglySorted (ascending key) (insert_asc key x l).
Proof.
  induction 1 as [|y l Hs IH Hall]; simpl.
  - repeat constructor.
  - destruct (key x <? key y) eqn:E.
    + apply Z.ltb_lt in E. constructor; [now constructor|].
      constructor; [unfold ascending; lia|].
      eapply Forall_impl; [|exact Hall]. unfold ascending. intros z Hz. lia.
    + apply Z.ltb_ge in E. constructor; [exact IH|].
      apply (Permutation_Forall (Permutation_sym (insert_asc_Permutation x l))).
      constructor; [exact E | exact Hall].
Qed.

Lemma order_by_asc_sorted (l : list A) :
  StronglySorted (ascending key) (order_by_asc key l).
Proof.
  induction l as [|x l IH]; simpl; [constructor | now apply insert_asc_sorted].
Qed.

End SortedProperties.

Lemma StronglySorted_map {A B : Type} (f : A -> B) (R : B -> B -> Prop) (l : list A) :
  StronglySorted (fun a b => R (f a) (f b)) l -> StronglySorted R (map f l).
Proof.
  induction 1 as [|x l Hs IH Hall]; simpl; constructor; [exact IH|].
  apply Forall_map. exact Hall.
Qed.

(** ** Leave listings *)

(** Every leave listing is ordered by [from_date], latest first. *)
Theorem leave_listing_latest_first (ss : Session) (tab : list LeaveApplication)
        (fs : filters) :
  StronglySorted (fun a b => la_from_date (leave b) <= la_from_date (leave a))
                 (get_leave_applications ss tab fs).
Proof.
  unfold get_leave_applications.
  assert (H : StronglySorted (descending la_from_date)
                             (get_list_LeaveApplication ss tab fs))
    by apply order_by_desc_sorted.
  induction H as [|l ls Hs IH Hall]; simpl; constructor; [exact IH|].
  apply Forall_map. exact Hall.
Qed.

Lemma get_leave_applications_In (ss : Session) (tab : list LeaveApplication)
      (fs : filters) (row : LeaveRow) :
  In row (get_leave_applications ss tab fs) ->
  In (leave row) tab /\ forallb (holds (leave row)) fs = true /\
  has_permission ss "Leave Application" "read" (Some (leave row)) (session_user ss)
  = true.
Proof.
  intros Hin. unfold get_leave_applications in Hin.
  apply in_map_iff in Hin. destruct Hin as [l [<- Hl]]. simpl.
  unfold get_list_LeaveApplication in Hl.
  apply order_by_desc_In, filter_In in Hl. destruct Hl as [Hl Hf].
  apply andb_true_iff in Hf. tauto.
Qed.

Lemma employee_leave_listing_rows (ss : Session) (tab : list LeaveApplication)
      (employee : string) (row : LeaveRow) :
  In row (get_employee_leave_applications ss tab employee) ->
  la_employee (leave row) = employee /\ la_status (leave row) <> "Cancelled".
Proof.
  intros Hin. apply get_leave_applications_In in Hin. destruct Hin as [_ [Hf _]].
  cbn in Hf. rewrite andb_true_r in Hf.
  apply andb_true_iff in Hf. destruct Hf as [H1 H2].
  apply String.eqb_eq in H1. apply negb_true_iff, String.eqb_neq in H2.
  now split.
Qed.

(** The listing of an employee's leave applications holds exactly the
    applications of the table that belong to the employee, are not
    cancelled and may be read by the session user, each as often as the
    table holds it. *)
Theorem employee_leave_listing_content (ss : Session) (tab : list LeaveApplication)
        (employee : string) :
  Permutation
    (map leave (get_employee_leave_applications ss tab employee))
    (filter (fun l => String.eqb (la_employee l) employee
                      && negb (String.eqb (la_status l) "Cancelled")
                      && has_permission ss "Leave Application" "read" (Some l)
                                        (session_user ss))
            tab) /\
  (forall row,
      In row (get_employee_leave_applications ss tab employee) ->
      la_employee (leave row) = employee /\ la_status (leave row) <> "Cancelled").
Proof.
  assert (Hmap : map leave (get_employee_leave_applications ss tab employee) =
                 get_list_LeaveApplication ss tab
                   [("employee", Is (VStr employee));
                    ("status", IsNot (VStr "Cancelled"))]).
  { unfold get_employee_leave_applications, get_leave_applications.
    rewrite map_map. simpl. apply map_id. }
  assert (Hperm : Permutation
            (get_list_LeaveApplication ss tab
               [("employee", Is (VStr employee)); ("status", IsNot (VStr "Cancelled"))])
            (filter (fun l => String.eqb (la_employee l) employee
                              && negb (String.eqb (la_status l) "Cancelled")
                              && has_permission ss "Leave Application" "read" (Some l)
                                                (session_user ss))
                    tab)).
  { unfold get_list_LeaveApplication.
    rewrite order_by_desc_Permutation.
    erewrite filter_ext; [reflexivity|].
    intros l. cbn. now rewrite andb_true_r. }
  split.
  - rewrite Hmap. exact Hperm.
  - apply employee_leave_listing_rows.
Qed.

(** The team listing of an approver never shows the asking employee's own
    applications: its rows are open, unsubmitted applications of other
    employees whose leave approver is the given user.  Hence no application
    is in both the employee's own listing and the team listing. *)
Theorem team_leave_listing_excludes_own (ss : Session) (tab : list LeaveApplication)
        (employee user_id : string) :
  (forall row,
      In row (get_team_leave_applications ss tab employee user_id) ->
      la_employee (leave row) <> employee /\
      la_leave_approver (leave row) = Some user_id /\
      la_status (leave row) = "Open" /\
      la_docstatus (leave row) = 0 /\
      In (leave row) tab) /\
  (forall own team,
      In own (get_employee_leave_applications ss tab employee) ->
      In team (get_team_leave_applications ss tab employee user_id) ->
      leave own <> leave team).
Proof.
  assert (Hteam : forall row,
             In row (get_team_leave_applications ss tab employee user_id) ->
             la_employee (leave row) <> employee /\
             la_leave_approver (leave row) = Some user_id /\
             la_status (leave row) = "Open" /\
             la_docstatus (leave row) = 0 /\
             In (leave row) tab).
  { intros row Hin. unfold get_team_leave_applications in Hin.
    apply get_leave_applications_In in Hin. destruct Hin as [Htab [Hf _]].
    cbn in Hf. rewrite andb_true_r in Hf.
    apply andb_true_iff in Hf. destruct Hf as [H1 Hf].
    apply andb_true_iff in Hf. destruct Hf as [H2 Hf].
    apply andb_true_iff in Hf. destruct Hf as [H3 H4].
    apply negb_true_iff, String.eqb_neq in H1.
    apply String.eqb_eq in H3. apply Z.eqb_eq in H4.
    repeat split; try assumption.
    destruct (la_leave_approver (leave row)) as [a|]; simpl in H2; [|discriminate].
    apply String.eqb_eq in H2. now subst. }
  split; [exact Hteam|].
  intros own team Ho Ht E.
  destruct (employee_leave_listing_rows ss tab employee own Ho) as [He _].
  destruct (Hteam team Ht) as [Hn _]. apply Hn. now rewrite <- E.
Qed.

(** ** Holidays, leave balances and leave types *)

(** The holidays of an employee are the entries of the employee's holiday
    list that are not weekly offs, earliest first; without a holiday list
    there are none. *)
Theorem holidays_of_employee (get_holiday_list_for_employee : string -> str_or_none)
        (tabHoliday : list Holiday) (employee : string) :
  let holidays :=
    get_holidays_for_employee get_holiday_list_for_employee tabHoliday employee in
  (truthy (get_holiday_list_for_employee employee) = false -> holidays = []) /\
  StronglySorted (fun a b => holiday_date a <= holiday_date b) holidays /\
  (forall h,
      In h holidays <->
      In h tabHoliday /\
      truthy (get_holiday_list_for_employee employee) = true /\
      get_holiday_list_for_employee employee = Some (holiday_parent h) /\
      weekly_off h = 0).
Proof.
  intros holidays. subst holidays. unfold get_holidays_for_employee.
  destruct (truthy (get_holiday_list_for_employee employee)) eqn:Ht; simpl.
  - split; [discriminate|]. split; [apply order_by_asc_sorted|].
    intros h. split.
    + intros Hin.
      apply (Permutation_in _ (order_by_asc_Permutation _ holiday_date _)) in Hin.
      apply filter_In in Hin. destruct Hin as [Hin Hf].
      apply andb_true_iff in Hf. destruct Hf as [H1 H2]. apply Z.eqb_eq in H2.
      destruct (get_holiday_list_for_employee employee) as [n|]; [|discriminate].
      simpl in H1. apply String.eqb_eq in H1. subst n. repeat split; assumption.
    + intros [Hin [_ [Hl Hw]]].
      apply (Permutation_in _
               (Permutation_sym (order_by_asc_Permutation _ holiday_date _))).
      apply filter_In. split; [exact Hin|].
      rewrite Hl, Hw. simpl. now rewrite String.eqb_refl.
  - split; [reflexivity|]. split; [constructor|].
    intros h. split; [intros [] | intros [_ [H _]]; discriminate].
Qed.

(** The loop over the allocation is a dictionary comprehension. *)
Lemma get_leave_balance_map_comprehension
      (get_leave_details : string -> string -> LeaveDetails)
      (getdate employee : string) :
  get_leave_balance_map get_leave_details getdate employee =
  dict_comprehension fst
    (fun item => {| allocated_leaves := dict_get "total_leaves" (snd item);
                    balance_leaves := dict_get "remaining_leaves" (snd item) |})
    (leave_allocation (get_leave_details employee getdate)).
Proof. reflexivity. Qed.

(** For an allocation with distinct leave types, the balance map has the
    same leave types in the same order and maps each to its total and
    remaining leaves, [None] standing for a number the engine did not
    give; a leave type without allocation has no entry. *)
Theorem leave_balance_map_lookup (get_leave_details : string -> string -> LeaveDetails)
        (getdate employee : string) :
  let allocation := leave_allocation (get_leave_details employee getdate) in
  let leave_map := get_leave_balance_map get_leave_details getdate employee in
  NoDup (dict_keys allocation) ->
  dict_keys leave_map = dict_keys allocation /\
  (forall leave_type,
      dict_get leave_type leave_map =
      option_map (fun details =>
                    {| allocated_leaves := dict_get "total_leaves" details;
                       balance_leaves := dict_get "remaining_leaves" details |})
                 (dict_get leave_type allocation)).
Proof.
  intros allocation leave_map Hnd. subst leave_map.
  rewrite get_leave_balance_map_comprehension. fold allocation. split.
  - now apply dict_comprehension_keys.
  - intros leave_type.
    rewrite dict_comprehension_get by exact Hnd.
    rewrite dict_get_find.
    now destruct (find (fun kv => String.eqb (fst kv) leave_type) allocation).
Qed.

Lemma leave_balance_map_lookup_witness :
  dict_keys (get_leave_balance_map Sample2.details_of "2024-01-01" "EMP-1") =
    ["Casual Leave"; "Earned Leave"] /\
  dict_get "Earned Leave" (get_leave_balance_map Sample2.details_of "2024-01-01" "EMP-1") =
    Some {| allocated_leaves := Some 300; balance_leaves := None |}.
Proof.
  assert (Hnd : NoDup (dict_keys (leave_allocation
                                    (Sample2.details_of "EMP-1" "2024-01-01")))).
  { repeat constructor; simpl; intuition discriminate. }
  destruct (leave_balance_map_lookup Sample2.details_of "2024-01-01" "EMP-1" Hnd)
    as [H1 H2].
  split; [exact H1 | exact (H2 "Earned Leave")].
Defined.

(** When no date is given, the leave types offered to an employee are the
    leave types of the balance map, in its order, followed by the
    leave-without-pay types. *)
Theorem leave_types_extend_balance_map
        (get_leave_details : string -> string -> LeaveDetails)
        (getdate employee : string) (date : str_or_none) :
  truthy date = false ->
  NoDup (dict_keys (leave_allocation (get_leave_details employee getdate))) ->
  get_leave_types get_leave_details getdate employee date =
  dict_keys (get_leave_balance_map get_leave_details getdate employee)
  ++ lwps (get_leave_details employee getdate).
Proof.
  intros Hd Hnd. unfold get_leave_types, or_else. rewrite Hd. f_equal.
  rewrite get_leave_balance_map_comprehension. symmetry.
  now apply dict_comprehension_keys.
Qed.

Lemma leave_types_extend_balance_map_witness :
  get_leave_types Sample2.details_of "2024-01-01" "EMP-1" (Some "") =
  dict_keys (get_leave_balance_map Sample2.details_of "2024-01-01" "EMP-1")
  ++ ["Leave Without Pay"].
Proof.
  apply (leave_types_extend_balance_map Sample2.details_of "2024-01-01" "EMP-1"
           (Some "") eq_refl).
  repeat constructor; simpl; intuition discriminate.
Defined.

(** ** Alternate approvers *)

Lemma join_rows_In (st : Store) (departments : list string) (pf : string)
      (row : ApproverRow) :
  In row (join_rows st departments pf) <->
  exists u a,
    In u (tabUser st) /\ In a (tabDepartmentApprover st) /\
    approver a = user_name u /\ In (parent a) departments /\ parentfield a = pf /\
    row = {| name := Some (user_name u); row_full_name := full_name u |}.
Proof.
  unfold join_rows. rewrite in_flat_map. split.
  - intros [u [Hu Hin]]. apply in_map_iff in Hin. destruct Hin as [a [<- Ha]].
    apply filter_In in Ha. destruct Ha as [Ha Hc]. unfold join_condition in Hc.
    apply andb_true_iff in Hc. destruct Hc as [Hc H3].
    apply andb_true_iff in Hc. destruct Hc as [H1 H2].
    apply String.eqb_eq in H1, H3.
    apply existsb_exists in H2. destruct H2 as [d [Hd E]].
    apply String.eqb_eq in E. subst d.
    exists u, a. repeat split; assumption.
  - intros [u [a [Hu [Ha [H1 [H2 [H3 ->]]]]]]]. exists u. split; [exact Hu|].
    apply in_map_iff. exists a. split; [reflexivity|].
    apply filter_In. split; [exact Ha|]. unfold join_condition.
    rewrite H1, H3, !String.eqb_refl. simpl. rewrite andb_true_r.
    apply existsb_exists. exists (parent a). split; [exact H2|].
    apply String.eqb_refl.
Qed.

(** The rows [get_department_approvers] answers for a department are
    exactly the registered users that an approver entry of the category
    names on a selected department, that is on a non-disabled department
    whose interval contains the queried one; entries of other categories,
    of disabled or unrelated departments, and entries naming no registered
    user give no row. *)
Theorem department_approvers_rows (st : Store) (dname pf : string)
        (details : Department) (rows : list ApproverRow) :
  dname <> "" ->
  get_value_Department st dname = Some details ->
  get_department_approvers st (Some dname) pf = Ok rows ->
  forall row,
    In row rows <->
    exists u a d,
      In u (tabUser st) /\ In a (tabDepartmentApprover st) /\ In d (tabDepartment st) /\
      approver a = user_name u /\ parent a = dept_name d /\ parentfield a = pf /\
      disabled d = 0 /\ lft d <= lft details /\ rgt details <= rgt d /\
      row = {| name := Some (user_name u); row_full_name := full_name u |}.
Proof.
  intros Hn Hd Hr row.
  rewrite (get_department_approvers_department st dname pf details Hn Hd) in Hr.
  assert (Hrows : In row rows <-> In row (join_rows st (get_all_departments st details) pf)).
  { unfold run_approver_query in Hr.
    destruct (get_all_departments st details) as [|n ns] eqn:E.
    - destruct (accepts_empty_in st); [|discriminate]. injection Hr as <-.
      split; [intros [] |]. intros H. apply join_rows_In in H.
      destruct H as [u [a [_ [_ [_ [[] _]]]]]].
    - injection Hr as <-. reflexivity. }
  rewrite Hrows, join_rows_In. split.
  - intros [u [a [Hu [Ha [H1 [H2 [H3 ->]]]]]]].
    apply get_all_departments_In in H2.
    destruct H2 as [d [Hin [Hname [H0 [Hl Hg]]]]].
    exists u, a, d. repeat split; try assumption. now symmetry.
  - intros [u [a [d [Hu [Ha [Hin [H1 [H2 [H3 [H0 [Hl [Hg ->]]]]]]]]]]]].
    exists u, a. repeat split; try assumption.
    apply get_all_departments_In. exists d. repeat split; try assumption.
    now symmetry.
Qed.

Lemma department_approvers_rows_witness :
  In {| name := Some "bob@example.com"; row_full_name := Some "Bob" |}
     [{| name := Some "ann@example.com"; row_full_name := Some "Ann" |};
      {| name := Some "ann@example.com"; row_full_name := Some "Ann" |};
      {| name := Some "bob@example.com"; row_full_name := Some "Bob" |}] <->
  exists u a d,
    In u (tabUser Sample.org) /\ In a (tabDepartmentApprover Sample.org) /\
    In d (tabDepartment Sample.org) /\
    approver a = user_name u /\ parent a = dept_name d /\
    parentfield a = "leave_approvers" /\
    disabled d = 0 /\ lft d <= lft Sample.sales /\ rgt Sample.sales <= rgt d /\
    {| name := Some "bob@example.com"; row_full_name := Some "Bob" |} =
    {| name := Some (user_name u); row_full_name := full_name u |}.
Proof.
  apply (department_approvers_rows Sample.org "Sales" "leave_approvers" Sample.sales);
    [discriminate | reflexivity | reflexivity].
Defined.

(** An employee whose department names no Department record gets no
    answer from either endpoint: the lookup of the interval bounds fails,
    also when the employee has an override. *)
Theorem missing_department_record_fails (c : category) (st : Store)
        (employee d : string) (e : Employee) :
  get_cached_Employee st employee = Ok e ->
  emp_department e = Some d ->
  d <> "" ->
  get_value_Department st d = None ->
  get_approval_details c st employee = Raise AttributeError.
Proof.
  intros He Hd Hn Hm. rewrite get_approval_details_unfold, He. simpl.
  unfold get_department_approvers. rewrite Hd. simpl.
  apply String.eqb_neq in Hn. rewrite Hn. simpl. now rewrite Hm.
Qed.

Lemma missing_department_record_witness :
  get_approval_details Leave
    {| tabEmployee := Sample.employees; tabDepartment := [];
       tabDepartmentApprover := Sample.approver_rows; tabUser := [Sample.ann; Sample.bob];
       hr_settings := hr_settings Sample.org; accepts_empty_in := true |}
    "EMP-3" = Raise AttributeError.
Proof.
  apply (missing_department_record_fails Leave _ "EMP-3" "Sales"
           {| emp_name := "EMP-3"; emp_leave_approver := Some "bob@example.com";
              emp_expense_approver := Some "bob@example.com";
              emp_department := Some "Sales" |});
    [reflexivity | reflexivity | discriminate | reflexivity].
Defined.

(** When the primary comes from the department (no override), the
    department is enabled and the first configured approver is a registered
    user, the join already lists the primary: nothing is appended and the
    returned list is the join over the department set. *)
Theorem fallback_primary_is_listed (c : category) (st : Store) (employee d : string)
        (e : Employee) (details : Department) (u : User) :
  get_cached_Employee st employee = Ok e ->
  truthy (override_of c e) = false ->
  emp_department e = Some d ->
  d <> "" ->
  get_value_Department st d = Some details ->
  disabled details = 0 ->
  In u (tabUser st) ->
  get_value_DepartmentApprover st d (parentfield_of c) 1 = Some (user_name u) ->
  exists r,
    get_approval_details c st employee = Ok r /\
    approver_id r = Some (user_name u) /\
    In (approver_id r) (map name (department_approvers r)) /\
    department_approvers r =
      join_rows st (get_all_departments st details) (parentfield_of c).
Proof.
  intros He Ho Hd Hn Hdet H0 Hu Hv.
  pose proof (get_department_approvers_enabled st d (parentfield_of c) details
                Hn Hdet H0) as Hq.
  rewrite <- Hd in Hq.
  pose proof (primary_approver_department c st e d Ho Hd Hn) as Hp.
  rewrite Hv in Hp.
  assert (Hin : In (Some (user_name u))
                   (map name (join_rows st (get_all_departments st details)
                                        (parentfield_of c)))).
  { pose proof (get_value_DepartmentApprover_spec st d (parentfield_of c) 1) as Hs.
    rewrite Hv in Hs. destruct Hs as [a [Ha [H1 [H2 [_ H4]]]]].
    apply in_map_iff.
    exists {| name := Some (user_name u); row_full_name := full_name u |}.
    split; [reflexivity|]. apply join_rows_In. exists u, a.
    repeat split; try assumption.
    apply get_all_departments_In. exists details.
    unfold get_value_Department in Hdet. apply find_some in Hdet.
    destruct Hdet as [Hin Hname]. apply String.eqb_eq in Hname.
    repeat split; try assumption; try lia. congruence. }
  eexists.
  split; [exact (get_approval_details_returns c st employee e _ He Hq)|].
  simpl. rewrite Hp.
  assert (Ha : append_primary (Some (user_name u))
                 (get_value_User_full_name st (Some (user_name u)))
                 (join_rows st (get_all_departments st details) (parentfield_of c))
               = join_rows st (get_all_departments st details) (parentfield_of c)).
  { unfold append_primary. apply mem_In in Hin. rewrite Hin.
    now rewrite andb_false_r. }
  rewrite Ha. repeat split. exact Hin.
Qed.

Lemma fallback_primary_is_listed_witness :
  exists r,
    get_approval_details Leave Sample.org "EMP-2" = Ok r /\
    approver_id r = Some "ann@example.com" /\
    List.length (department_approvers r) = 3%nat.
Proof.
  destruct (fallback_primary_is_listed Leave Sample.org "EMP-2" "Sales"
              {| emp_name := "EMP-2"; emp_leave_approver := None;
                 emp_expense_approver := Some ""; emp_department := Some "Sales" |}
              Sample.sales Sample.ann
              eq_refl eq_refl eq_refl ltac:(discriminate) eq_refl eq_refl
              (or_introl eq_refl) eq_refl)
    as [r [H1 [H2 [_ H4]]]].
  exists r. split; [exact H1|]. split; [exact H2|]. rewrite H4. reflexivity.
Defined.

(** ** Separation of the two workflow categories *)

Lemma find_parentfield_filter (p pf : string) (i : Z) (l : list DepartmentApprover) :
  find (approver_filter p pf i) l =
  find (approver_filter p pf i) (filter (fun a => String.eqb (parentfield a) pf) l).
Proof.
  induction l as [|a l IH]; simpl; [reflexivity|].
  destruct (String.eqb (parentfield a) pf) eqn:E; simpl.
  - now rewrite IH.
  - unfold approver_filter at 1. rewrite E, andb_false_r. simpl. exact IH.
Qed.

Lemma join_parentfield_filter (departments : list string) (pf : string) (u : User)
      (l : list DepartmentApprover) :
  filter (join_condition departments pf u) l =
  filter (join_condition departments pf u)
         (filter (fun a => String.eqb (parentfield a) pf) l).
Proof.
  induction l as [|a l IH]; simpl; [reflexivity|].
  destruct (String.eqb (parentfield a) pf) eqn:E; simpl.
  - now rewrite IH.
  - unfold join_condition at 1. rewrite E, andb_false_r. exact IH.
Qed.

Lemma find_employee_view (c : category) (n : string) (l l' : list Employee) :
  map (fun e => (emp_name e, override_of c e, emp_department e)) l =
  map (fun e => (emp_name e, override_of c e, emp_department e)) l' ->
  match find (fun e => String.eqb (emp_name e) n) l,
        find (fun e => String.eqb (emp_name e) n) l' with
  | Some e, Some e' =>
      override_of c e = override_of c e' /\ emp_department e = emp_department e'
  | None, None => True
  | _, _ => False
  end.
Proof.
  revert l'. induction l as [|e l IH]; intros [|e' l'] H; simpl in *;
    try discriminate; [exact I|].
  injection H as Hn Ho Hd Hl. rewrite <- Hn.
  destruct (String.eqb (emp_name e) n); [now split | now apply IH].
Qed.

(** The answer for one category does not depend on what is configured for
    the other: two stores that agree on the departments, the users, the
    mandatory flag of the category, the employees' names, departments and
    overrides of the category, and the approver entries of the category
    give the same answer, whatever the other override fields and the other
    category's approver entries hold. *)
Theorem approval_details_ignore_other_category (c : category) (st st' : Store)
        (employee : string) :
  map (fun e => (emp_name e, override_of c e, emp_department e)) (tabEmployee st) =
  map (fun e => (emp_name e, override_of c e, emp_department e)) (tabEmployee st') ->
  tabDepartment st = tabDepartment st' ->
  tabUser st = tabUser st' ->
  accepts_empty_in st = accepts_empty_in st' ->
  mandatory_of c st = mandatory_of c st' ->
  filter (fun a => String.eqb (parentfield a) (parentfield_of c))
         (tabDepartmentApprover st) =
  filter (fun a => String.eqb (parentfield a) (parentfield_of c))
         (tabDepartmentApprover st') ->
  get_approval_details c st employee = get_approval_details c st' employee.
Proof.
  intros He Hd Hu Ha Hm Hf.
  assert (Hval : forall p i,
             get_value_DepartmentApprover st p (parentfield_of c) i =
             get_value_DepartmentApprover st' p (parentfield_of c) i).
  { intros p i. unfold get_value_DepartmentApprover.
    rewrite (find_parentfield_filter p _ i (tabDepartmentApprover st)),
            (find_parentfield_filter p _ i (tabDepartmentApprover st')), Hf.
    reflexivity. }
  assert (Hname : forall x, get_value_User_full_name st x = get_value_User_full_name st' x).
  { intros x. unfold get_value_User_full_name. now rewrite Hu. }
  assert (Hjoin : forall ds, join_rows st ds (parentfield_of c) =
                             join_rows st' ds (parentfield_of c)).
  { intros ds. unfold join_rows. rewrite Hu.
    apply flat_map_ext. intros u.
    rewrite (join_parentfield_filter ds _ u (tabDepartmentApprover st)),
            (join_parentfield_filter ds _ u (tabDepartmentApprover st')), Hf.
    reflexivity. }
  assert (Hq : forall d, get_department_approvers st d (parentfield_of c) =
                         get_department_approvers st' d (parentfield_of c)).
  { intros d. unfold get_department_approvers, get_value_Department,
      get_all_departments, run_approver_query.
    rewrite Hd, Ha. destruct (negb (truthy d)); [reflexivity|].
    destruct d as [dn|]; [|reflexivity].
    destruct (find (fun d0 => String.eqb (dept_name d0) dn) (tabDepartment st'));
      [|reflexivity].
    now rewrite Hjoin. }
  rewrite !get_approval_details_unfold. unfold get_cached_Employee.
  pose proof (find_employee_view c employee _ _ He) as Hv.
  destruct (find (fun e => String.eqb (emp_name e) employee) (tabEmployee st)) as [e|];
    destruct (find (fun e => String.eqb (emp_name e) employee) (tabEmployee st'))
    as [e'|]; try contradiction; [|reflexivity].
  destruct Hv as [Ho Hdep]. simpl.
  assert (Hp : primary_approver c st e = primary_approver c st' e').
  { unfold primary_approver. rewrite Ho, Hdep.
    destruct (negb (truthy (override_of c e')) && truthy (emp_department e'));
      [|reflexivity].
    destruct (emp_department e'); [apply Hval | reflexivity]. }
  rewrite Hdep, Hq, Hp, Hm.
  destruct (get_department_approvers st' (emp_department e') (parentfield_of c));
    simpl; [|reflexivity].
  now rewrite Hname.
Qed.

Lemma approval_details_ignore_other_category_witness :
  get_approval_details Leave Sample.org "EMP-2" =
  get_approval_details Leave
    {| tabEmployee :=
         [ {| emp_name := "EMP-1"; emp_leave_approver := Some "bob@example.com";
              emp_expense_approver := None; emp_department := None |};
           {| emp_name := "EMP-2"; emp_leave_approver := None;
              emp_expense_approver := Some "bob@example.com";
              emp_department := Some "Sales" |};
           {| emp_name := "EMP-3"; emp_leave_approver := Some "bob@example.com";
              emp_expense_approver := None; emp_department := Some "Sales" |};
           {| emp_name := "EMP-4"; emp_leave_approver := None;
              emp_expense_approver := None; emp_department := Some "" |} ];
       tabDepartment := tabDepartment Sample.org;
       tabDepartmentApprover :=
         {| parent := "Sales"; parentfield := "expense_approvers"; idx := 1;
            approver := "bob@example.com" |}
         :: firstn 3 Sample.approver_rows;
       tabUser := tabUser Sample.org;
       hr_settings := {| leave_approver_mandatory_in_leave_application := 1;
                         expense_approver_mandatory_in_expense_claim := 1 |};
       accepts_empty_in := false |}
    "EMP-2".
Proof.
  apply (approval_details_ignore_other_category Leave); reflexivity.
Defined.

(** ** Expense claim listings *)

Lemma In_firstn {A : Type} (n : nat) (l : list A) (x : A) :
  In x (firstn n l) -> In x l.
Proof.
  revert n. induction l as [|y l IH]; intros [|n]; simpl; try tauto.
  intros [H|H]; [now left | right; now apply (IH n)].
Qed.

Lemma StronglySorted_firstn {A : Type} (R : A -> A -> Prop) (n : nat) (l : list A) :
  StronglySorted R l -> StronglySorted R (firstn n l).
Proof.
  intros H. revert n. induction H as [|x l Hs IH Hall]; intros [|n]; simpl;
    try constructor; [apply IH|].
  apply Forall_forall. intros y Hy.
  apply (proj1 (Forall_forall _ _) Hall). exact (In_firstn n l y Hy).
Qed.

(** The rows before any limit. *)
Lemma get_expense_claims_rows (cs : ClaimStore) (employee : string)
      (approver_id : str_or_none) (for_approval : bool) (limit : option Z)
      (rows : list ClaimRow) :
  get_expense_claims cs employee approver_id for_approval limit = Ok rows ->
  exists n,
    rows = firstn n
             (order_by_desc (fun r => claim_posting_date (claim r))
                (flat_map (group_claim (tabExpenseClaimDetail cs))
                   (filter (claim_where employee approver_id for_approval)
                      (tabExpenseClaim cs)))).
Proof.
  unfold get_expense_claims. intros H.
  set (all := order_by_desc _ _) in *.
  destruct (truthy_int limit).
  - destruct limit as [n|].
    + destruct (n <? 0); [discriminate|]. injection H as <-. now exists (Z.to_nat n).
    + injection H as <-. exists (List.length all). now rewrite firstn_all.
  - injection H as <-. exists (List.length all). now rewrite firstn_all.
Qed.

Lemma get_expense_claims_In (cs : ClaimStore) (employee : string)
      (approver_id : str_or_none) (for_approval : bool) (limit : option Z)
      (rows : list ClaimRow) (r : ClaimRow) :
  get_expense_claims cs employee approver_id for_approval limit = Ok rows ->
  In r rows ->
  In (claim r) (tabExpenseClaim cs) /\
  claim_where employee approver_id for_approval (claim r) = true /\
  In r (group_claim (tabExpenseClaimDetail cs) (claim r)).
Proof.
  intros H Hin. apply get_expense_claims_rows in H. destruct H as [n ->].
  apply In_firstn, order_by_desc_In, in_flat_map in Hin.
  destruct Hin as [c [Hc Hr]]. apply filter_In in Hc. destruct Hc as [Hc Hw].
  assert (E : claim r = c).
  { unfold group_claim in Hr.
    destruct (filter _ (tabExpenseClaimDetail cs)); [destruct Hr|].
    destruct Hr as [<-|[]]. reflexivity. }
  rewrite E. repeat split; assumption.
Qed.

(** A listing for approval never shows a claim of the asking employee:
    its rows are unsubmitted Draft claims of other employees whose expense
    approver is the given user. *)
Theorem claims_for_approval_exclude_own (cs : ClaimStore) (employee a : string)
        (limit : option Z) (rows : list ClaimRow) :
  get_expense_claims cs employee (Some a) true limit = Ok rows ->
  forall r,
    In r rows ->
    claim_employee (claim r) <> employee /\
    claim_expense_approver (claim r) = Some a /\
    claim_status (claim r) = "Draft" /\
    claim_docstatus (claim r) = 0 /\
    In (claim r) (tabExpenseClaim cs).
Proof.
  intros H r Hin.
  destruct (get_expense_claims_In _ _ _ _ _ _ r H Hin) as [Hc [Hw _]].
  unfold claim_where in Hw.
  apply andb_true_iff in Hw. destruct Hw as [Hw H4].
  apply andb_true_iff in Hw. destruct Hw as [Hw H3].
  apply andb_true_iff in Hw. destruct Hw as [H1 H2].
  apply Z.eqb_eq in H1. apply String.eqb_eq in H2.
  apply negb_true_iff, String.eqb_neq in H4.
  repeat split; try assumption.
  destruct (claim_expense_approver (claim r)) as [x|]; simpl in H3; [|discriminate].
  apply String.eqb_eq in H3. now subst.
Qed.

Lemma claims_for_approval_witness :
  claim_employee (Sample.claim_of "EXP-6" "EMP-2" "Draft" 600 0 15 0) <> "EMP-1".
Proof.
  exact (proj1 (claims_for_approval_exclude_own Sample.claims "EMP-1"
                  "ann@example.com" None _ eq_refl
                  {| claim := Sample.claim_of "EXP-6" "EMP-2" "Draft" 600 0 15 0;
                     row_expense_type := Some "Travel"; total_expenses := 1 |}
                  (or_introl eq_refl))).
Defined.

(** An employee's own listing shows claims of the employee that are not
    cancelled and have at least one expense line, latest posting first;
    the count of expenses of a row is the number of the claim's expense
    lines that name an expense type, so it lies between 0 and the number of
    lines, and the expense type shown is that of one of the lines. *)
Theorem own_claims_listing (cs : ClaimStore) (employee : string)
        (approver_id : str_or_none) (limit : option Z) (rows : list ClaimRow) :
  get_expense_claims cs employee approver_id false limit = Ok rows ->
  StronglySorted (fun r1 r2 => claim_posting_date (claim r2) <=
                               claim_posting_date (claim r1)) rows /\
  forall r,
    In r rows ->
    In (claim r) (tabExpenseClaim cs) /\
    claim_employee (claim r) = employee /\
    claim_docstatus (claim r) <> 2 /\
    let lines := filter (fun d => String.eqb (claim_name (claim r)) (detail_parent d))
                        (tabExpenseClaimDetail cs) in
    lines <> [] /\
    total_expenses r = count_expense_types lines /\
    0 <= total_expenses r <= Z.of_nat (List.length lines) /\
    exists d, In d lines /\ row_expense_type r = expense_type d.
Proof.
  intros H. split.
  - apply get_expense_claims_rows in H. destruct H as [n ->].
    apply StronglySorted_firstn.
    apply (order_by_desc_sorted ClaimRow (fun r => claim_posting_date (claim r))).
  - intros r Hin.
    destruct (get_expense_claims_In _ _ _ _ _ _ r H Hin) as [Hc [Hw Hg]].
    unfold claim_where in Hw.
    apply andb_true_iff in Hw. destruct Hw as [H1 H2].
    apply negb_true_iff, Z.eqb_neq in H1. apply String.eqb_eq in H2.
    repeat split; try assumption.
    + intros E. unfold group_claim in Hg. rewrite E in Hg. destruct Hg.
    + unfold group_claim in Hg.
      destruct (filter _ (tabExpenseClaimDetail cs)); [destruct Hg|].
      destruct Hg as [<-|[]]. reflexivity.
    + unfold group_claim in Hg.
      destruct (filter _ (tabExpenseClaimDetail cs)) as [|d ds]; [destruct Hg|].
      destruct Hg as [<-|[]]. simpl. unfold count_expense_types. lia.
    + unfold group_claim in Hg.
      destruct (filter _ (tabExpenseClaimDetail cs)) as [|d ds]; [destruct Hg|].
      destruct Hg as [<-|[]]. cbn [total_expenses]. unfold count_expense_types.
      pose proof (filter_length_le
                    (fun d0 => match expense_type d0 with
                               | Some _ => true
                               | None => false
                               end) (d :: ds)).
      lia.
    + unfold group_claim in Hg.
      destruct (filter _ (tabExpenseClaimDetail cs)) as [|d ds]; [destruct Hg|].
      destruct Hg as [<-|[]]. exists d. split; [now left | reflexivity].
Qed.

Lemma own_claims_listing_witness :
  claim_employee (Sample.claim_of "EXP-2" "EMP-1" "Approved" 200 200 12 1) = "EMP-1".
Proof.
  destruct (proj2 (own_claims_listing Sample.claims "EMP-1" None (Some 2) _ eq_refl)
              {| claim := Sample.claim_of "EXP-2" "EMP-1" "Approved" 200 200 12 1;
                 row_expense_type := Some "Travel"; total_expenses := 1 |}
              (or_intror (or_introl eq_refl))) as [_ [H _]].
  exact H.
Defined.

Lemma NoDup_firstn {A : Type} (n : nat) (l : list A) :
  NoDup l -> NoDup (firstn n l).
Proof.
  intros H. revert n. induction H as [|x l Hn Hd IH]; intros [|n]; simpl;
    try constructor; [|apply IH].
  intros Hin. apply Hn. exact (In_firstn n l x Hin).
Qed.

Lemma grouped_names_In (details : list ExpenseClaimDetail) (w : ExpenseClaim -> bool)
      (l : list ExpenseClaim) (n : string) :
  In n (map (fun r => claim_name (claim r)) (flat_map (group_claim details) (filter w l))) ->
  In n (map claim_name l).
Proof.
  intros H. apply in_map_iff in H. destruct H as [r [<- Hr]].
  apply in_flat_map in Hr. destruct Hr as [c [Hc Hg]].
  apply filter_In in Hc. destruct Hc as [Hc _].
  unfold group_claim in Hg.
  destruct (filter _ details); [destruct Hg|]. destruct Hg as [<-|[]]. simpl.
  now apply in_map.
Qed.

Lemma grouped_names_NoDup (details : list ExpenseClaimDetail) (w : ExpenseClaim -> bool)
      (l : list ExpenseClaim) :
  NoDup (map claim_name l) ->
  NoDup (map (fun r => claim_name (claim r)) (flat_map (group_claim details) (filter w l))).
Proof.
  induction l as [|c l IH]; intros H; simpl; [constructor|].
  inversion H as [|? ? Hn Hd]; subst.
  destruct (w c); simpl; [|now apply IH].
  rewrite map_app. unfold group_claim at 1.
  destruct (filter _ details); simpl; [now apply IH|].
  constructor; [|now apply IH].
  intros Hin. apply Hn. exact (grouped_names_In details w l _ Hin).
Qed.

(** With claim names as keys of the table, a listing shows every claim at
    most once, however many expense lines it has. *)
Theorem claims_listed_once (cs : ClaimStore) (employee : string)
        (approver_id : str_or_none) (for_approval : bool) (limit : option Z)
        (rows : list ClaimRow) :
  NoDup (map claim_name (tabExpenseClaim cs)) ->
  get_expense_claims cs employee approver_id for_approval limit = Ok rows ->
  NoDup (map (fun r => claim_name (claim r)) rows).
Proof.
  intros Hnd H. apply get_expense_claims_rows in H. destruct H as [n ->].
  rewrite <- firstn_map. apply NoDup_firstn.
  eapply Permutation_NoDup.
  - apply Permutation_map, Permutation_sym, order_by_desc_Permutation.
  - now apply grouped_names_NoDup.
Qed.

Lemma claims_listed_once_witness :
  NoDup ["EXP-4"; "EXP-2"; "EXP-3"; "EXP-1"].
Proof.
  apply (claims_listed_once Sample.claims "EMP-1" None false None
           [ {| claim := Sample.claim_of "EXP-4" "EMP-1" "On Hold" 400 400 13 0;
                row_expense_type := None; total_expenses := 0 |};
             {| claim := Sample.claim_of "EXP-2" "EMP-1" "Approved" 200 200 12 1;
                row_expense_type := Some "Travel"; total_expenses := 1 |};
             {| claim := Sample.claim_of "EXP-3" "EMP-1" "Rejected" 300 300 11 1;
                row_expense_type := Some "Food"; total_expenses := 1 |};
             {| claim := Sample.claim_of "EXP-1" "EMP-1" "Draft" 100 0 10 0;
                row_expense_type := Some "Travel"; total_expenses := 2 |} ]);
    [|reflexivity].
  repeat constructor; simpl; intuition discriminate.
Defined.

(** ** Expense claim summary *)

(** The three sums are [NULL] ([None]) exactly when the employee has no
    claim that is not cancelled, and then the summary names no company and
    no currency; with such a claim each sum is a number. *)
Theorem summary_is_null_without_claims (cs : ClaimStore) (employee : string) :
  let s := get_expense_claim_summary cs employee in
  let no_claims :=
    forall c, In c (tabExpenseClaim cs) ->
              claim_docstatus c = 2 \/ claim_employee c <> employee in
  (total_pending_amount s = None <-> no_claims) /\
  (total_approved_amount s = None <-> no_claims) /\
  (total_rejected_amount s = None <-> no_claims) /\
  (no_claims -> company s = None /\ currency s = None).
Proof.
  intros s no_claims. subst s no_claims. unfold get_expense_claim_summary. simpl.
  assert (Hiff : filter (summary_where employee) (tabExpenseClaim cs) = [] <->
                 forall c, In c (tabExpenseClaim cs) ->
                           claim_docstatus c = 2 \/ claim_employee c <> employee).
  { split.
    - intros E c Hc.
      destruct (summary_where employee c) eqn:Hw.
      + assert (Hin : In c (filter (summary_where employee) (tabExpenseClaim cs)))
          by (apply filter_In; now split).
        rewrite E in Hin. destruct Hin.
      + unfold summary_where in Hw. apply andb_false_iff in Hw.
        destruct Hw as [Hw|Hw].
        * left. apply negb_false_iff, Z.eqb_eq in Hw. exact Hw.
        * right. now apply String.eqb_neq.
    - intros H.
      destruct (filter (summary_where employee) (tabExpenseClaim cs)) as [|c l] eqn:E;
        [reflexivity|].
      assert (Hin : In c (filter (summary_where employee) (tabExpenseClaim cs)))
        by (rewrite E; now left).
      apply filter_In in Hin. destruct Hin as [Hc Hw]. unfold summary_where in Hw.
      apply andb_true_iff in Hw. destruct Hw as [H1 H2].
      apply negb_true_iff, Z.eqb_neq in H1. apply String.eqb_eq in H2.
      destruct (H c Hc); contradiction. }
  rewrite <- Hiff.
  destruct (filter (summary_where employee) (tabExpenseClaim cs)) as [|c l]; simpl.
  - repeat split; intros; reflexivity.
  - repeat split; intros; discriminate.
Qed.

(** A cancelled claim, or a claim of another employee, changes nothing in
    an employee's summary, wherever it stands in the table. *)
Theorem summary_ignores_foreign_claims (l1 l2 : list ExpenseClaim) (c : ExpenseClaim)
        (details : list ExpenseClaimDetail) (companies : list Company)
        (currencies : list Currency) (employee : string) :
  claim_docstatus c = 2 \/ claim_employee c <> employee ->
  get_expense_claim_summary
    {| tabExpenseClaim := l1 ++ c :: l2; tabExpenseClaimDetail := details;
       tabCompany := companies; tabCurrency := currencies |} employee =
  get_expense_claim_summary
    {| tabExpenseClaim := l1 ++ l2; tabExpenseClaimDetail := details;
       tabCompany := companies; tabCurrency := currencies |} employee.
Proof.
  intros H. unfold get_expense_claim_summary. simpl.
  assert (E : filter (summary_where employee) (l1 ++ c :: l2) =
              filter (summary_where employee) (l1 ++ l2)).
  { rewrite !filter_app. simpl.
    assert (Hw : summary_where employee c = false).
    { unfold summary_where. destruct H as [H|H].
      - rewrite H. reflexivity.
      - apply String.eqb_neq in H. rewrite H. apply andb_false_r. }
    now rewrite Hw. }
  now rewrite E.
Qed.

Lemma summary_ignores_foreign_claims_witness :
  get_expense_claim_summary Sample.claims "EMP-1" =
  get_expense_claim_summary
    {| tabExpenseClaim := firstn 4 (tabExpenseClaim Sample.claims)
                          ++ skipn 5 (tabExpenseClaim Sample.claims);
       tabExpenseClaimDetail := tabExpenseClaimDetail Sample.claims;
       tabCompany := tabCompany Sample.claims;
       tabCurrency := tabCurrency Sample.claims |} "EMP-1".
Proof.
  apply (summary_ignores_foreign_claims
           (firstn 4 (tabExpenseClaim Sample.claims))
           (skipn 5 (tabExpenseClaim Sample.claims))
           (Sample.claim_of "EXP-5" "EMP-1" "Approved" 500 500 14 2)).
  left. reflexivity.
Defined.

(** ** Currencies *)

Lemma NoDup_map_eq {A B : Type} (f : A -> B) (l : list A) (x y : A) :
  NoDup (map f l) -> In x l -> In y l -> f x = f y -> x = y.
Proof.
  induction l as [|z l IH]; intros Hnd Hx Hy E; [destruct Hx|].
  inversion Hnd as [|? ? Hn Hd]; subst.
  destruct Hx as [->|Hx], Hy as [->|Hy]; try reflexivity.
  - exfalso. apply Hn. rewrite E. now apply in_map.
  - exfalso. apply Hn. rewrite <- E. now apply in_map.
  - now apply IH.
Qed.

Lemma dict_comprehension_get_In {A V : Type} (key : A -> string) (value : A -> V)
      (xs : list A) (x : A) :
  NoDup (map key xs) -> In x xs ->
  dict_get (key x) (dict_comprehension key value xs) = Some (value x).
Proof.
  intros Hnd Hin. rewrite dict_comprehension_get by exact Hnd.
  now rewrite (find_key_In A key x xs Hnd Hin).
Qed.

Lemma dict_comprehension_get_None {A V : Type} (key : A -> string) (value : A -> V)
      (xs : list A) (k : string) :
  ~ In k (map key xs) ->
  dict_get k (dict_comprehension key value xs) = None.
Proof.
  intros Hn. unfold dict_comprehension.
  now rewrite (dict_get_fold_other A V key value k xs []).
Qed.

Lemma dict_comprehension_get_Some {A V : Type} (key : A -> string) (value : A -> V)
      (xs : list A) (k : string) (v : V) :
  NoDup (map key xs) ->
  dict_get k (dict_comprehension key value xs) = Some v ->
  exists x, In x xs /\ key x = k /\ value x = v.
Proof.
  intros Hnd H. rewrite dict_comprehension_get in H by exact Hnd.
  destruct (find (fun x => String.eqb (key x) k) xs) as [x|] eqn:Hf; [|discriminate].
  apply find_some in Hf. destruct Hf as [Hin E]. apply String.eqb_eq in E.
  injection H as <-. now exists x.
Qed.

Lemma or_else_name_truthy (s : str_or_none) (n : string) :
  n <> "" -> truthy (or_else s (Some n)) = true.
Proof.
  intros Hn. unfold or_else. destruct (truthy s) eqn:E; [exact E|].
  simpl. now apply negb_true_iff, String.eqb_neq.
Qed.

(** With currency names as keys of the table, the symbol map has an entry
    for every currency and for nothing else: the currency's symbol when one
    is registered, its name otherwise; no currency with a name is mapped to
    an empty symbol. *)
Theorem currency_symbols_never_empty (cs : ClaimStore) :
  NoDup (map currency_name (tabCurrency cs)) ->
  dict_keys (get_currency_symbols cs) = map currency_name (tabCurrency cs) /\
  (forall cur,
      In cur (tabCurrency cs) ->
      dict_get (currency_name cur) (get_currency_symbols cs) =
      Some (if truthy (symbol cur) then symbol cur else Some (currency_name cur))) /\
  (forall n v,
      dict_get n (get_currency_symbols cs) = Some v ->
      (exists cur, In cur (tabCurrency cs) /\ currency_name cur = n) /\
      (n <> "" -> truthy v = true)).
Proof.
  intros Hnd. unfold get_currency_symbols. split; [|split].
  - now apply dict_comprehension_keys.
  - intros cur Hin.
    exact (dict_comprehension_get_In currency_name _ _ cur Hnd Hin).
  - intros n v H.
    apply dict_comprehension_get_Some in H; [|exact Hnd].
    destruct H as [cur [Hin [Hk Hv]]]. split; [now exists cur|].
    intros Hn. rewrite <- Hv, Hk. now apply or_else_name_truthy.
Qed.

Lemma currency_symbols_witness :
  dict_get "EUR" (get_currency_symbols Sample2.money) = Some (Some "EUR").
Proof.
  assert (Hnd : NoDup (map currency_name (tabCurrency Sample2.money))).
  { repeat constructor; simpl; intuition discriminate. }
  exact (proj1 (proj2 (currency_symbols_never_empty Sample2.money Hnd))
               {| currency_name := "EUR"; symbol := Some "" |}
               (or_intror (or_intror (or_introl eq_refl)))).
Defined.

Lemma company_currency_rows_In (cs : ClaimStore) (row : CompanyCurrencyRow) :
  In row (company_currency_rows cs) <->
  exists c cur,
    In c (tabCompany cs) /\ In cur (tabCurrency cs) /\
    default_currency c = Some (currency_name cur) /\
    row = {| cc_name := company_name c;
             cc_default_currency := currency_name cur;
             cc_symbol := symbol cur |}.
Proof.
  unfold company_currency_rows. rewrite in_flat_map. split.
  - intros [c [Hc Hin]]. apply in_map_iff in Hin. destruct Hin as [cur [<- Hf]].
    apply filter_In in Hf. destruct Hf as [Hcur E].
    exists c, cur. repeat split; try assumption.
    destruct (default_currency c) as [n|]; simpl in E; [|discriminate].
    apply String.eqb_eq in E. now subst.
  - intros [c [cur [Hc [Hcur [E ->]]]]]. exists c. split; [exact Hc|].
    apply in_map_iff. exists cur. split; [reflexivity|].
    apply filter_In. split; [exact Hcur|]. rewrite E. simpl. apply String.eqb_refl.
Qed.

Lemma matching_currency_unique (d : str_or_none) (l : list Currency) :
  NoDup (map currency_name l) ->
  (List.length (filter (fun cur => eq_str d (currency_name cur)) l) <= 1)%nat.
Proof.
  induction l as [|x l IH]; intros Hnd; simpl; [lia|].
  inversion Hnd as [|? ? Hn Hd]; subst. specialize (IH Hd).
  destruct (eq_str d (currency_name x)) eqn:E; [|exact IH].
  assert (Hnone : filter (fun cur => eq_str d (currency_name cur)) l = []).
  { destruct (filter (fun cur => eq_str d (currency_name cur)) l) as [|y ys] eqn:F;
      [reflexivity|].
    assert (Hy : In y (filter (fun cur => eq_str d (currency_name cur)) l))
      by (rewrite F; now left).
    apply filter_In in Hy. destruct Hy as [Hy Ey].
    destruct d as [n|]; simpl in E, Ey; [|discriminate].
    apply String.eqb_eq in E, Ey. exfalso. apply Hn. rewrite <- E, Ey.
    now apply in_map. }
  rewrite Hnone. simpl. lia.
Qed.

Lemma company_currency_rows_NoDup (companies : list Company) (currencies : list Currency)
      (details : list ExpenseClaimDetail) (claims : list ExpenseClaim) :
  NoDup (map company_name companies) ->
  NoDup (map currency_name currencies) ->
  NoDup (map cc_name
           (company_currency_rows
              {| tabExpenseClaim := claims; tabExpenseClaimDetail := details;
                 tabCompany := companies; tabCurrency := currencies |})).
Proof.
  intros Hc Hcur. unfold company_currency_rows. simpl.
  induction companies as [|c l IH]; simpl; [constructor|].
  inversion Hc as [|? ? Hn Hd]; subst. specialize (IH Hd).
  rewrite map_app, map_map. simpl.
  pose proof (matching_currency_unique (default_currency c) currencies Hcur) as Hlen.
  destruct (filter (fun cur => eq_str (default_currency c) (currency_name cur)) currencies)
    as [|x [|y ys]]; simpl in *; [exact IH | | lia].
  constructor; [|exact IH].
  intros Hin. apply in_map_iff in Hin. destruct Hin as [row [E Hrow]].
  apply in_flat_map in Hrow. destruct Hrow as [c' [Hc' Hrow]].
  apply in_map_iff in Hrow. destruct Hrow as [cur [<- _]]. simpl in E.
  apply Hn. rewrite <- E. now apply in_map.
Qed.

(** With company names and currency names as keys of their tables, a
    company whose default currency is registered is mapped to what the
    symbol map gives for that currency, and a company whose default
    currency is not registered, or that has none, has no entry. *)
Theorem company_currencies_agree_with_symbols (cs : ClaimStore) (c : Company) :
  NoDup (map company_name (tabCompany cs)) ->
  NoDup (map currency_name (tabCurrency cs)) ->
  In c (tabCompany cs) ->
  (forall cur,
      In cur (tabCurrency cs) ->
      default_currency c = Some (currency_name cur) ->
      dict_get (company_name c) (get_company_currencies cs) =
      dict_get (currency_name cur) (get_currency_symbols cs)) /\
  ((forall cur, In cur (tabCurrency cs) ->
                default_currency c <> Some (currency_name cur)) ->
   dict_get (company_name c) (get_company_currencies cs) = None).
Proof.
  intros Hco Hcu Hc.
  assert (Hrows : NoDup (map cc_name (company_currency_rows cs))).
  { destruct cs as [cl dl col cul]. now apply company_currency_rows_NoDup. }
  split.
  - intros cur Hcur E.
    unfold get_company_currencies, get_currency_symbols.
    rewrite (dict_comprehension_get_In currency_name _ _ cur Hcu Hcur).
    assert (Hin : In {| cc_name := company_name c;
                        cc_default_currency := currency_name cur;
                        cc_symbol := symbol cur |} (company_currency_rows cs)).
    { apply company_currency_rows_In. now exists c, cur. }
    exact (dict_comprehension_get_In cc_name _ _ _ Hrows Hin).
  - intros Hnone. unfold get_company_currencies.
    apply dict_comprehension_get_None. intros Hin.
    apply in_map_iff in Hin. destruct Hin as [row [E Hrow]].
    apply company_currency_rows_In in Hrow.
    destruct Hrow as [c' [cur [Hc' [Hcur [Hd ->]]]]]. simpl in E.
    assert (c' = c) by exact (NoDup_map_eq company_name _ c' c Hco Hc' Hc E).
    subst c'. exact (Hnone cur Hcur Hd).
Qed.

Lemma company_currencies_witness :
  dict_get "Globex" (get_company_currencies Sample2.money) =
  dict_get "XTS" (get_currency_symbols Sample2.money).
Proof.
  assert (H1 : NoDup (map company_name (tabCompany Sample2.money))).
  { repeat constructor; simpl; intuition discriminate. }
  assert (H2 : NoDup (map currency_name (tabCurrency Sample2.money))).
  { repeat constructor; simpl; intuition discriminate. }
  exact (proj1 (company_currencies_agree_with_symbols Sample2.money
                  {| company_name := "Globex"; default_currency := Some "XTS" |}
                  H1 H2 (or_intror (or_introl eq_refl)))
               {| currency_name := "XTS"; symbol := None |}
               (or_intror (or_introl eq_refl)) eq_refl).
Defined.

(** ** Employee advances *)

(** The advance listing holds exactly the submitted advances of the
    employee on which something was paid and whose status is Paid or
    Unpaid, latest posting first; the balance of a row is what was paid
    less what was claimed and returned. *)
Theorem advance_balance_listing (tabAdvance : list EmployeeAdvance) (employee : string) :
  let rows := get_employee_advance_balance tabAdvance employee in
  StronglySorted (fun r1 r2 => adv_posting_date (advance r2) <=
                               adv_posting_date (advance r1)) rows /\
  Permutation (map advance rows) (filter (advance_where employee) tabAdvance) /\
  (forall r,
      In r rows <->
      In (advance r) tabAdvance /\
      adv_docstatus (advance r) = 1 /\
      paid_amount (advance r) <> 0 /\
      adv_employee (advance r) = employee /\
      (adv_status (advance r) = "Paid" \/ adv_status (advance r) = "Unpaid") /\
      balance_amount r + claimed_amount (advance r) + return_amount (advance r) =
        paid_amount (advance r)).
Proof.
  intros rows. subst rows. unfold get_employee_advance_balance.
  split; [|split].
  - apply (order_by_desc_sorted AdvanceRow (fun r => adv_posting_date (advance r))).
  - rewrite order_by_desc_Permutation, map_map. simpl. now rewrite map_id.
  - intros r. rewrite order_by_desc_In, in_map_iff.
    assert (Hw : forall a,
               advance_where employee a = true <->
               adv_docstatus a = 1 /\ paid_amount a <> 0 /\ adv_employee a = employee /\
               (adv_status a = "Paid" \/ adv_status a = "Unpaid")).
    { intros a. unfold advance_where. simpl.
      rewrite !andb_true_iff, !orb_true_iff, negb_true_iff, Z.eqb_eq, Z.eqb_neq,
        !String.eqb_eq.
      intuition discriminate. }
    split.
    + intros [a [<- Ha]]. apply filter_In in Ha. destruct Ha as [Ha Hf].
      apply Hw in Hf. simpl. intuition lia.
    + intros [Ha [H1 [H2 [H3 [H4 H5]]]]]. exists (advance r). split.
      * destruct r as [a b]. simpl in *. f_equal. lia.
      * apply filter_In. split; [exact Ha|]. apply Hw. tauto.
Qed.
